(** * tnft-stratum: block-template refresh, blob mutation, RPC transport and
      upstream health tracking

    A shallow embedding of [rpc/rpc.go] and [stratum/blocks.go].

    - Go's [int], [int64] and [uint32] are [Z] with the wrap-around written
      out ([wrap64]); bytes are [Byte.byte]; Go strings (byte sequences) are
      [string].
    - A Go [error] is represented by its message text.
    - A run-time panic (nil dereference, failed type assertion, slice bounds
      out of range) is an explicit outcome [Panicked]; a panic that nobody
      recovers ends the process.
    - The mutexes of [RPCClient] and the atomic cell holding the current
      template are modelled sequentially: one call runs at a time.
    - Byte slices live in a heap of backing arrays, so that aliasing between a
      template's buffer and the scratch buffer of [nextBlob] is visible.
    - The daemon, [encoding/json] and [cnutil.ConvertBlob] are parameters:
      the code is run against what they hand back.  [encoding/hex] and the
      built-ins [make], [copy] and slicing are modelled. *)

From Stdlib Require Import ZArith Lia Bool List Floats.
From Stdlib Require Import Strings.Byte Strings.Ascii Strings.String.
From stdpp Require Import base option list gmap strings.

Local Open Scope Z_scope.

(** ** Machine integers *)

Definition wrap64 (z : Z) : Z := (z + 2 ^ 63) mod 2 ^ 64 - 2 ^ 63.

Definition int64_range (z : Z) : Prop := - 2 ^ 63 <= z < 2 ^ 63.

(** ** Outcomes and the state monad used for all stateful code *)

Inductive result (S A : Type) : Type :=
| Returned (a : A) (s : S)
| Panicked (msg : string) (s : S).
Arguments Returned {S A} a s.
Arguments Panicked {S A} msg s.

Definition M (S A : Type) : Type := S -> result S A.

Definition ret {S A} (a : A) : M S A := fun s => Returned a s.

Definition bind {S A B} (m : M S A) (k : A -> M S B) : M S B :=
  fun s => match m s with
           | Returned a s' => k a s'
           | Panicked msg s' => Panicked msg s'
           end.

Definition panic {S A} (msg : string) : M S A := fun s => Panicked msg s.
Definition get {S} : M S S := fun s => Returned s s.
Definition modify {S} (f : S -> S) : M S unit := fun s => Returned tt (f s).

(** Running a computation on a component [T] of a larger state [S]. *)
Definition zoom {S T A} (proj : S -> T) (upd : T -> S -> S) (m : M T A) : M S A :=
  fun s => match m (proj s) with
           | Returned a t => Returned a (upd t s)
           | Panicked msg t => Panicked msg (upd t s)
           end.

Definition final_state {S A} (r : result S A) : S :=
  match r with Returned _ s => s | Panicked _ s => s end.

Definition returned {S A} (r : result S A) : option A :=
  match r with Returned a _ => Some a | Panicked _ _ => None end.

(** Triples for the state monad: from a state satisfying [P], a run that
    returns [a] ends in a state satisfying [Q a], and one that panics ends in
    a state satisfying [E]. *)
Definition hoare {S A} (P : S -> Prop) (c : M S A)
    (Q : A -> S -> Prop) (E : S -> Prop) : Prop :=
  forall s, P s ->
    match c s with
    | Returned a s' => Q a s'
    | Panicked _ s' => E s'
    end.

(** The monad operations are registered with stdpp's classes, which gives
    the notations [x ← m; k] and [m;; k]. *)
Global Instance M_ret {S} : MRet (M S) := fun A a => ret a.
Global Instance M_bind {S} : MBind (M S) := fun A B k m => bind m k.

(** Go's [error] interface: [None] is [nil], [Some msg] an error whose
    [Error()] text is [msg]. *)
Definition error : Type := string.

(** Values held by a Go [interface{}], as [encoding/json] produces them and as
    the request parameters use them. *)
#[warnings="-register-all"]
Inductive iface : Type :=
| INil
| IBool (b : bool)
| IInt (n : Z)
| IFloat64 (f : float)
| IString (s : string)
| ISlice (l : list iface)
| IMap (m : gmap string iface).

Module Rpc.

(** [json.RawMessage]: the undecoded bytes of a JSON value. *)
Definition RawMessage : Type := string.

Record GetBlockTemplateReply := {
  Difficulty : Z;
  Height : Z;
  Blob : string;
  ReservedOffset : Z;
  PrevHash : string;
  SeedHash : string;
  NextSeedHash : string
}.

Record GetInfoReply := {
  IncomingConnections : Z;
  OutgoingConnections : Z;
  InfoHeight : Z;
  TxPoolSize : Z;
  Status : string
}.

(** [Result] and [Id] are pointers ([None] is nil); [Error] is a map that is
    nil ([None]) when the envelope has no error object. *)
Record JSONRpcResp := {
  Id : option RawMessage;
  Result : option RawMessage;
  Error : option (gmap string iface)
}.

Record RPCClient := {
  sickRate : Z;
  successRate : Z;
  Accepts : Z;
  Rejects : Z;
  LastSubmissionAt : Z;
  FailsCount : Z;
  Url : string;
  login : string;
  password : string;
  Name : string;
  sick : bool;
  info : option GetInfoReply
}.

Definition set_health (r : RPCClient) (sr su fc : Z) (sk : bool) : RPCClient :=
  {| sickRate := sr; successRate := su; Accepts := Accepts r;
     Rejects := Rejects r; LastSubmissionAt := LastSubmissionAt r;
     FailsCount := fc; Url := Url r; login := login r;
     password := password r; Name := Name r; sick := sk; info := info r |}.

(** [NewRPCClient] for a host and port whose URL parses: a fresh client,
    every counter zero and [sick] false. *)
Definition NewRPCClient (name host port user pass : string) : RPCClient :=
  {| sickRate := 0; successRate := 0; Accepts := 0; Rejects := 0;
     LastSubmissionAt := 0; FailsCount := 0;
     Url := "http://" ++ host ++ ":" ++ port ++ "/json_rpc";
     login := user; password := pass; Name := name; sick := false;
     info := None |}.

(** *** Health monitor *)

Definition markSick_pure (r : RPCClient) : RPCClient :=
  let fc := if sick r then FailsCount r else wrap64 (FailsCount r + 1) in
  let sr := wrap64 (sickRate r + 1) in
  let su := 0 in
  let sk := if 5 <=? sr then true else sick r in
  set_health r sr su fc sk.

Definition markAlive_pure (r : RPCClient) : RPCClient :=
  let su := wrap64 (successRate r + 1) in
  if 5 <=? su
  then set_health r 0 0 (FailsCount r) false
  else set_health r (sickRate r) su (FailsCount r) (sick r).

Definition markSick : M RPCClient unit := modify markSick_pure.
Definition markAlive : M RPCClient unit := modify markAlive_pure.
Definition Sick : M RPCClient bool := fun r => Returned (sick r) r.

(** A client as [NewRPCClient] builds it for a daemon on the local host. *)
Definition local_client : RPCClient := NewRPCClient "main" "127.0.0.1" "18081" "" "".

(** Sequences of health reports, for statements about histories. *)
Inductive report : Type := Failure | Success.

Definition apply_report (r : RPCClient) (e : report) : RPCClient :=
  match e with
  | Failure => markSick_pure r
  | Success => markAlive_pure r
  end.

Definition run (evs : list report) (r : RPCClient) : RPCClient :=
  fold_left apply_report evs r.

(** The number of failure reports of [evs] made while the endpoint was not
    sick, when the reports are applied in order from [r]. *)
Fixpoint failures_while_not_sick (evs : list report) (r : RPCClient) : nat :=
  match evs with
  | [] => 0
  | e :: evs' =>
      (match e with
       | Failure => if sick r then 0 else 1
       | Success => 0
       end + failures_while_not_sick evs' (apply_report r e))%nat
  end.

(** *** The daemon and the JSON decoder

    One call of the transport performs one HTTP round trip.  [Exchange] is
    what the two library calls of [doPost] hand back: either [r.client.Do]
    fails, or a response is obtained and
    [json.NewDecoder(resp.Body).Decode(&rpcResp)] leaves [rpcResp] (nil for a
    body that is the JSON literal null or that is not JSON) and returns
    [err]. *)

Record Request := {
  req_url : string;
  req_user : string;
  req_password : string;
  req_method : string;
  req_params : iface
}.

Inductive Exchange : Type :=
| DoFailed (err : error)
| Responded (rpcResp : option JSONRpcResp) (err : option error).

Definition Daemon : Type := Request -> Exchange.

(** [json.Unmarshal(raw, &reply)] for a nil [reply] pointer of each reply
    type: the pointer afterwards and the error returned. *)
Record Json := {
  unmarshalBlockTemplate : RawMessage -> option GetBlockTemplateReply * option error;
  unmarshalInfo : RawMessage -> option GetInfoReply * option error;
  unmarshalBlockHash : RawMessage -> option string * option error
}.

(** The request of lines 129-135: POST to [url] with basic authentication and
    the body {"jsonrpc":"2.0","id":0,"method":method,"params":params}. *)
Definition newRequest (r : RPCClient) (url method : string) (params : iface) : Request :=
  {| req_url := url; req_user := login r; req_password := password r;
     req_method := method; req_params := params |}.

Definition blockTemplateParams (reserveSize : Z) (address : string) : iface :=
  IMap {[ "reserve_size" := IInt reserveSize; "wallet_address" := IString address ]}.

(** Sample daemons and decoders for concrete runs.  [answers resp] is a daemon
    whose response body decodes to the envelope [resp]; [Json_at raw out] is a
    decoder whose outcome on the payload [raw] is [out] (any other payload is
    rejected: the runs below never present one). *)
Definition answers (resp : JSONRpcResp) : Daemon :=
  fun _ => Responded (Some resp) None.

Definition Json_at (raw : RawMessage)
    (out : option GetBlockTemplateReply * option error) : Json :=
  {| unmarshalBlockTemplate x :=
       if String.eqb x raw then out else (None, Some "unexpected end of JSON input");
     unmarshalInfo _ := (None, Some "unexpected end of JSON input");
     unmarshalBlockHash _ := (None, Some "unexpected end of JSON input") |}.

(** The zero value of [GetBlockTemplateReply], which is what the payload {}
    decodes to. *)
Definition zero_reply : GetBlockTemplateReply :=
  {| Difficulty := 0; Height := 0; Blob := ""; ReservedOffset := 0;
     PrevHash := ""; SeedHash := ""; NextSeedHash := "" |}.

(** The payload {"blocktemplate_blob":"<blob>"} and the reply it decodes to. *)
Definition dquote : string := String "034"%char "".

Definition blob_payload (blob : string) : RawMessage :=
  ("{" ++ dquote ++ "blocktemplate_blob" ++ dquote ++ ":" ++ dquote ++ blob ++ dquote ++ "}")%string.

Definition blob_reply (blob : string) : GetBlockTemplateReply :=
  {| Difficulty := 0; Height := 0; Blob := blob; ReservedOffset := 0;
     PrevHash := ""; SeedHash := ""; NextSeedHash := "" |}.

(** {"id":0,"error":{"code":-1}}: an error object without a message. *)
Definition error_without_message : JSONRpcResp :=
  {| Id := Some "0"; Result := None;
     Error := Some {[ "code" := IFloat64 (-1)%float ]} |}.

(** {"id":0,"error":{"message":404}}: a message that is not a string. *)
Definition error_with_numeric_message : JSONRpcResp :=
  {| Id := Some "0"; Result := None;
     Error := Some {[ "message" := IFloat64 404%float ]} |}.

(** {"id":0,"error":{"message":"X"}}. *)
Definition error_with_message (X : string) : JSONRpcResp :=
  {| Id := Some "0"; Result := None;
     Error := Some {[ "message" := IString X ]} |}.

(** {"id":0}: neither a result nor an error. *)
Definition empty_envelope : JSONRpcResp :=
  {| Id := Some "0"; Result := None; Error := None |}.

(** {"id":0,"result":raw}. *)
Definition result_envelope (raw : RawMessage) : JSONRpcResp :=
  {| Id := Some "0"; Result := Some raw; Error := None |}.

Section Transport.

Variable json : Json.
Variable daemon : Daemon.

(** Lines 128-160.  [http.NewRequest] is given the client's own parsed URL and
    the constant method POST, so [req] is never nil. *)
Definition doPost (url method : string) (params : iface)
  : M RPCClient (option JSONRpcResp * option error) :=
  r ← get;
  match daemon (newRequest r url method params) with
  | DoFailed err => markSick;; ret (None, Some err)
  | Responded rpcResp err =>
      match err with
      | Some e => markSick;; ret (None, Some e)
      | None =>
          match rpcResp with
          | None => panic "invalid memory address or nil pointer dereference"
          | Some resp =>
              match Error resp with
              | Some m =>
                  markSick;;
                  match m !! "message" with
                  | Some (IString msg) => ret (None, Some msg)
                  | _ => panic "interface conversion: interface {} is not string"
                  end
              | None => ret (Some resp, None)
              end
          end
      end
  end.

(** Lines 81-92.  [reply] is nil unless [json.Unmarshal] sets it. *)
Definition GetBlockTemplate (reserveSize : Z) (address : string)
  : M RPCClient (option GetBlockTemplateReply * option error) :=
  r ← get;
  let params := blockTemplateParams reserveSize address in
  '(rpcResp, err) ← doPost (Url r) "getblocktemplate" params;
  match err with
  | Some e => ret (None, Some e)
  | None =>
      match rpcResp with
      | None => panic "invalid memory address or nil pointer dereference"
      | Some resp =>
          match Result resp with
          | Some raw => ret (unmarshalBlockTemplate json raw)
          | None => ret (None, None)
          end
      end
  end.

(** Lines 94-105. *)
Definition GetInfo : M RPCClient (option GetInfoReply * option error) :=
  r ← get;
  '(rpcResp, err) ← doPost (Url r) "get_info" (IMap ∅);
  match err with
  | Some e => ret (None, Some e)
  | None =>
      match rpcResp with
      | None => panic "invalid memory address or nil pointer dereference"
      | Some resp =>
          match Result resp with
          | Some raw => ret (unmarshalInfo json raw)
          | None => ret (None, None)
          end
      end
  end.

(** Lines 115-126.  The height is not sent: the parameters are empty. *)
Definition GetBlockHash (height : Z) : M RPCClient (option string * option error) :=
  r ← get;
  '(rpcResp, err) ← doPost (Url r) "getblockhash" (IMap ∅);
  match err with
  | Some e => ret (None, Some e)
  | None =>
      match rpcResp with
      | None => panic "invalid memory address or nil pointer dereference"
      | Some resp =>
          match Result resp with
          | Some raw => ret (unmarshalBlockHash json raw)
          | None => ret (None, None)
          end
      end
  end.

(** Lines 107-113. *)
Definition SubmitBlock (hash : string) : M RPCClient (option JSONRpcResp * option error) :=
  r ← get; doPost (Url r) "submitblock" (ISlice [IString hash]).

Definition ValidateAddress (addr : string) : M RPCClient (option JSONRpcResp * option error) :=
  r ← get; doPost (Url r) "validateaddress" (ISlice [IString addr]).

(** Lines 162-169. *)
Definition Check (reserveSize : Z) (address : string) : M RPCClient (bool * option error) :=
  '(_, err) ← GetBlockTemplate reserveSize address;
  match err with
  | Some e => ret (false, Some e)
  | None => markAlive;; s ← Sick; ret (negb s, None)
  end.

Definition set_info (i : option GetInfoReply) (r : RPCClient) : RPCClient :=
  {| sickRate := sickRate r; successRate := successRate r; Accepts := Accepts r;
     Rejects := Rejects r; LastSubmissionAt := LastSubmissionAt r;
     FailsCount := FailsCount r; Url := Url r; login := login r;
     password := password r; Name := Name r; sick := sick r; info := i |}.

Definition UpdateInfo : M RPCClient (option GetInfoReply * option error) :=
  '(i, err) ← GetInfo;
  match err with
  | None => modify (set_info i);; ret (i, err)
  | Some _ => ret (i, err)
  end.

Definition Info : M RPCClient (option GetInfoReply) := fun r => Returned (info r) r.

End Transport.

(** *** Histories of calls *)

(** The number of failure reports in a history. *)
Fixpoint failures (evs : list report) : nat :=
  match evs with
  | [] => 0
  | Failure :: evs' => S (failures evs')
  | Success :: evs' => failures evs'
  end.

(** [Check] called once per round trip, the daemon behaving as [ds] says in
    turn; the results of the calls are collected in order. *)
Fixpoint probe (json : Json) (ds : list Daemon) (reserveSize : Z) (address : string)
  : M RPCClient (list (bool * option error)) :=
  match ds with
  | [] => ret []
  | d :: ds' =>
      res ← Check json d reserveSize address;
      rest ← probe json ds' reserveSize address;
      ret (res :: rest)
  end.

(** The daemon cannot be reached: [r.client.Do] fails on every request. *)
Definition unreachable (d : Daemon) : Prop :=
  exists e, forall req, d req = DoFailed e.

(** The daemon answers every request with one envelope that carries no error
    object and whose result, if there is one, the decoder accepts. *)
Definition answers_well (json : Json) (d : Daemon) : Prop :=
  exists resp,
    (forall req, d req = Responded (Some resp) None)
    /\ Error resp = None
    /\ forall raw, Result resp = Some raw -> snd (unmarshalBlockTemplate json raw) = None.

(** A daemon that is down, and a decoder that accepts every payload as the
    zero reply. *)
Definition down : Daemon := fun _ => DoFailed "connection refused".

Definition lenient : Json :=
  {| unmarshalBlockTemplate _ := (Some zero_reply, None);
     unmarshalInfo _ :=
       (Some {| IncomingConnections := 0; OutgoingConnections := 0;
                InfoHeight := 0; TxPoolSize := 0; Status := "OK" |}, None);
     unmarshalBlockHash _ := (Some "", None) |}.

End Rpc.

(** ** [encoding/hex] *)

Module Hex.

Inductive hex_error : Type :=
| ErrLength
| InvalidByteError (b : byte).

(** [reverseHexTable]: the value of a hexadecimal digit, [None] standing for
    the table's 0xff. *)
Definition fromHexChar (c : byte) : option N :=
  let n := Byte.to_N c in
  if ((48 <=? n) && (n <=? 57))%N then Some (n - 48)%N
  else if ((97 <=? n) && (n <=? 102))%N then Some (n - 87)%N
  else if ((65 <=? n) && (n <=? 70))%N then Some (n - 55)%N
  else None.

Definition byte_of_N (n : N) : byte :=
  match Byte.of_N (n mod 256)%N with Some b => b | None => x00 end.

(** [hex.Decode]: pairs of digits are decoded from the left; at the first
    malformed pair the bytes decoded so far are returned with the error. *)
Fixpoint Decode (src : list byte) : list byte * option hex_error :=
  match src with
  | [] => ([], None)
  | [p] =>
      match fromHexChar p with
      | None => ([], Some (InvalidByteError p))
      | Some _ => ([], Some ErrLength)
      end
  | p :: q :: rest =>
      match fromHexChar p, fromHexChar q with
      | None, _ => ([], Some (InvalidByteError p))
      | Some _, None => ([], Some (InvalidByteError q))
      | Some a, Some b =>
          let '(out, err) := Decode rest in
          (byte_of_N (a * 16 + b) :: out, err)
      end
  end.

Definition DecodeString (s : string) : list byte * option hex_error :=
  Decode (list_byte_of_string s).

(** [hextable] is "0123456789abcdef". *)
Definition hexdigit (n : N) : byte :=
  if (n <? 10)%N then byte_of_N (48 + n) else byte_of_N (87 + n).

Definition Encode (src : list byte) : list byte :=
  flat_map (fun v => [hexdigit (Byte.to_N v / 16); hexdigit (Byte.to_N v mod 16)]) src.

Definition EncodeToString (src : list byte) : string :=
  string_of_list_byte (Encode src).

End Hex.

(** ** [stratum/blocks.go] *)

Module Stratum.

(** *** Memory: backing arrays of byte slices and template objects *)

Definition loc : Type := positive.

(** A slice header: backing array, offset of its first element, length and
    capacity. *)
Record slice := { base : loc; off : nat; len : nat; cap : nat }.

Record BlockTemplate := {
  diffInt64 : Z;
  height : Z;
  difficulty : Z;
  reservedOffset : Z;
  prevHash : string;
  buffer : slice;
  seedHash : string;
  nextSeedHash : string
}.

Record Memory := {
  arrays : gmap loc (list byte);
  templates : gmap loc BlockTemplate
}.

Definition set_arrays (a : gmap loc (list byte)) (m : Memory) : Memory :=
  {| arrays := a; templates := templates m |}.

Definition set_templates (t : gmap loc BlockTemplate) (m : Memory) : Memory :=
  {| arrays := arrays m; templates := t |}.

(** Allocation of a new backing array holding [bs]; the slice returned spans
    the whole array. *)
Definition alloc_bytes (bs : list byte) : M Memory slice :=
  fun m =>
    let p := fresh (dom (arrays m)) in
    Returned {| base := p; off := 0; len := length bs; cap := length bs |}
             (set_arrays (<[p := bs]> (arrays m)) m).

(** [make([]byte, n)]. *)
Definition make (n : nat) : M Memory slice := alloc_bytes (replicate n x00).

(** The elements of a slice. *)
Definition contents (m : Memory) (s : slice) : option (list byte) :=
  arr ← arrays m !! base s; Some (take (len s) (drop (off s) arr)).

Definition load (s : slice) : M Memory (list byte) :=
  fun m => match contents m s with
           | Some bs => Returned bs m
           | None => Panicked "invalid memory address" m
           end.

Definition overwrite (arr : list byte) (at_ : nat) (bs : list byte) : list byte :=
  take at_ arr ++ bs ++ drop (at_ + length bs) arr.

(** The built-in [copy(dst, src)]: the first min(len dst, len src) elements of
    [src] are written over the first elements of [dst]; the number copied is
    returned. *)
Definition copy (dst src : slice) : M Memory nat :=
  fun m =>
    let n := Nat.min (len dst) (len src) in
    match contents m src, arrays m !! base dst with
    | Some bs, Some arr =>
        Returned n (set_arrays (<[base dst := overwrite arr (off dst) (take n bs)]> (arrays m)) m)
    | _, _ => Panicked "invalid memory address" m
    end.

(** The slice expressions [s[lo:hi]] and [s[lo:]] with their bounds checks. *)
Definition slice_lo_hi (s : slice) (lo hi : Z) : M Memory slice :=
  if (0 <=? lo) && (lo <=? hi) && (hi <=? Z.of_nat (cap s))
  then ret {| base := base s; off := off s + Z.to_nat lo;
              len := Z.to_nat (hi - lo); cap := cap s - Z.to_nat lo |}
  else panic "slice bounds out of range".

Definition slice_lo (s : slice) (lo : Z) : M Memory slice :=
  if (0 <=? lo) && (lo <=? Z.of_nat (len s))
  then ret {| base := base s; off := off s + Z.to_nat lo;
              len := len s - Z.to_nat lo; cap := cap s - Z.to_nat lo |}
  else panic "slice bounds out of range".

(** [b.field] through a template pointer. *)
Definition deref (b : loc) : M Memory BlockTemplate :=
  fun m => match templates m !! b with
           | Some t => Returned t m
           | None => Panicked "invalid memory address or nil pointer dereference" m
           end.

(** [binary.Write(extraBuff, binary.BigEndian, extraNonce)] for a [uint32]. *)
Definition byte_of_Z (z : Z) : byte := Hex.byte_of_N (Z.to_N (z mod 256)).

Definition uint32_be (n : Z) : list byte :=
  [byte_of_Z (Z.shiftr n 24); byte_of_Z (Z.shiftr n 16);
   byte_of_Z (Z.shiftr n 8); byte_of_Z n].

(** Slice [s] is backed by memory [m] and its elements are [bs]. *)
Definition holds (m : Memory) (s : slice) (bs : list byte) : Prop :=
  contents m s = Some bs /\ length bs = len s.

(** The unsigned number a byte sequence denotes in big-endian order. *)
Definition big_endian (bs : list byte) : Z :=
  fold_left (fun acc b => acc * 256 + Z.of_N (Byte.to_N b)) bs 0.

(** The seven bytes of a blob at the template's reserved offset. *)
Definition mutated_region (t : BlockTemplate) (blob : list byte) : list byte :=
  take 7 (drop (Z.to_nat (reservedOffset t)) blob).

(** The blob [nextBlob] hands to the transform, in closed form. *)
Definition mutated (buf : list byte) (R : nat) (extraNonce : Z) (idb : list byte)
  : list byte :=
  take R buf ++ uint32_be extraNonce ++ idb ++ drop (R + 7) buf.

(** The scratch buffer for an instance id of any length: the first three
    bytes of the id, or all of it when it is shorter, go to offset [R + 4],
    then the nonce to offset [R]. *)
Definition mutated_any (buf : list byte) (R : nat) (extraNonce : Z) (idb : list byte)
  : list byte :=
  overwrite (overwrite buf (R + 4) (take 3 idb)) R (uint32_be extraNonce).

(** The frame [keeps T0 A0]: the templates are [T0] and every array of [A0]
    is still there, unchanged. *)
Definition keeps (T0 : gmap loc BlockTemplate) (A0 : gmap loc (list byte))
    (m : Memory) : Prop :=
  templates m = T0 /\ A0 ⊆ arrays m.

(** The memory is exactly this: the arrays are [B] and the templates [T]. *)
Definition state (B : gmap loc (list byte)) (T : gmap loc BlockTemplate)
    (m : Memory) : Prop :=
  arrays m = B /\ templates m = T.

Section Blob.

(** [cnutil.ConvertBlob], the coin-specific reserialization, is not part of
    the sources at hand: it is a parameter, a function of the bytes it is
    given. *)
Variable ConvertBlob : list byte -> list byte.

(** Lines 25-31: the scratch buffer as it is when handed to [ConvertBlob]. *)
Definition scratch (b : loc) (extraNonce : Z) (instanceId : slice) : M Memory slice :=
  extraBuff ← alloc_bytes (uint32_be extraNonce);
  t ← deref b;
  blobBuff ← make (len (buffer t));
  copy blobBuff (buffer t);;
  w ← slice_lo_hi blobBuff (wrap64 (reservedOffset t + 4)) (wrap64 (reservedOffset t + 7));
  copy w instanceId;;
  w' ← slice_lo blobBuff (reservedOffset t);
  copy w' extraBuff;;
  ret blobBuff.

(** Lines 24-34. *)
Definition nextBlob (b : loc) (extraNonce : Z) (instanceId : slice) : M Memory string :=
  blobBuff ← scratch b extraNonce instanceId;
  bytes ← load blobBuff;
  ret (Hex.EncodeToString (ConvertBlob bytes)).

End Blob.

(** A sample memory: array 1 holds a ten-byte template buffer, array 2 a
    three-byte instance id; template 1 reserves offset 2, template 2 carries
    the reserved offset -1, template 3 has an empty previous-block hash. *)
Definition sample_buffer : slice := {| base := 1%positive; off := 0; len := 10; cap := 10 |}.
Definition sample_instanceId : slice := {| base := 2%positive; off := 0; len := 3; cap := 3 |}.

Definition sample_template (ro : Z) (prev : string) : BlockTemplate :=
  {| diffInt64 := 1000; height := 100; difficulty := 1000; reservedOffset := ro;
     prevHash := prev; buffer := sample_buffer; seedHash := ""; nextSeedHash := "" |}.

Definition sample_memory : Memory :=
  {| arrays := {[ 1%positive := [x01; x02; x03; x04; x05; x06; x07; x08; x09; x0a];
                  2%positive := [xaa; xbb; xcc] ]};
     templates := {[ 1%positive := sample_template 2 "abc";
                     2%positive := sample_template (-1) "abc";
                     3%positive := sample_template 2 "" ]} |}.

(** *** The server and the template refresher *)

(** The part of [StratumServer] that [fetchBlockTemplate] touches: the
    upstream it polls, the configured wallet address, the cell holding the
    pointer to the current template (nil until the first publication) and the
    memory the templates live in. *)
Record StratumServer := {
  upstream : Rpc.RPCClient;
  config_Address : string;
  blockTemplate : option loc;
  memory : Memory
}.

Definition set_upstream (r : Rpc.RPCClient) (s : StratumServer) : StratumServer :=
  {| upstream := r; config_Address := config_Address s;
     blockTemplate := blockTemplate s; memory := memory s |}.

Definition set_memory (m : Memory) (s : StratumServer) : StratumServer :=
  {| upstream := upstream s; config_Address := config_Address s;
     blockTemplate := blockTemplate s; memory := m |}.

(** [s.blockTemplate.Store(p)]. *)
Definition Store (p : loc) (s : StratumServer) : StratumServer :=
  {| upstream := upstream s; config_Address := config_Address s;
     blockTemplate := Some p; memory := memory s |}.

(** Modelled from the spec: [s.rpc()], defined outside the sources at hand,
    yields the one upstream endpoint the refresher polls in this cycle; calls
    made through it act on that endpoint's record. *)
Definition rpc {A} (call : M Rpc.RPCClient A) : M StratumServer A :=
  zoom upstream set_upstream call.

(** Modelled from the spec: [s.currentBlockTemplate()], defined outside the
    sources at hand, yields the current snapshot, or nil when none was ever
    published. *)
Definition currentBlockTemplate : M StratumServer (option loc) :=
  fun s => Returned (blockTemplate s) s.

Definition in_memory {A} (op : M Memory A) : M StratumServer A :=
  zoom memory set_memory op.

(** A new template object on the heap ([&newTemplate]). *)
Definition alloc_template (t : BlockTemplate) : M Memory loc :=
  fun m =>
    let p := fresh (dom (templates m)) in
    Returned p (set_templates (<[p := t]> (templates m)) m).

(** [reply.Field] through the reply pointer. *)
Definition reply_fields (reply : option Rpc.GetBlockTemplateReply)
  : M StratumServer Rpc.GetBlockTemplateReply :=
  match reply with
  | Some rp => ret rp
  | None => panic "invalid memory address or nil pointer dereference"
  end.

(** The snapshot the store currently points to. *)
Definition current (s : StratumServer) : option BlockTemplate :=
  p ← blockTemplate s; templates (memory s) !! p.

(** The cell is nil, or points to a template object. *)
Definition store_ok (s : StratumServer) : Prop :=
  blockTemplate s = None \/ is_Some (current s).

(** Every field of [t] other than the buffer is the reply's. *)
Definition built_from (rp : Rpc.GetBlockTemplateReply) (t : BlockTemplate) : Prop :=
  diffInt64 t = Rpc.Difficulty rp
  /\ difficulty t = Rpc.Difficulty rp
  /\ height t = Rpc.Height rp
  /\ prevHash t = Rpc.PrevHash rp
  /\ reservedOffset t = Rpc.ReservedOffset rp
  /\ seedHash t = Rpc.SeedHash rp
  /\ nextSeedHash t = Rpc.NextSeedHash rp.

(** The invariant the data model asks of a template. *)
Definition reserved_fits (t : BlockTemplate) : Prop :=
  reservedOffset t + 7 <= Z.of_nat (len (buffer t)).

(** A server that has not published yet, and one whose store points to
    template [p] of the sample memory. *)
Definition new_server : StratumServer :=
  {| upstream := Rpc.local_client; config_Address := "wallet";
     blockTemplate := None;
     memory := {| arrays := ∅; templates := ∅ |} |}.

Definition sample_server (p : loc) : StratumServer :=
  {| upstream := Rpc.local_client; config_Address := "wallet";
     blockTemplate := Some p; memory := sample_memory |}.

Section Refresh.

Variable json : Rpc.Json.
Variable daemon : Rpc.Daemon.

(** Lines 45-54: whether the reply is new work.  Both branches read fields of
    [reply]: the comparison on line 45 when a template is stored, the
    arguments of [log.Printf] on line 53 when none is. *)
Definition novel (t : option loc) (reply : option Rpc.GetBlockTemplateReply)
  : M StratumServer bool :=
  match t with
  | Some p =>
      cur ← in_memory (deref p);
      rp ← reply_fields reply;
      if String.eqb (prevHash cur) (Rpc.PrevHash rp)
      then ret ((String.length (Rpc.PrevHash rp) =? 0)%nat && (Rpc.Height rp >? height cur))
      else ret true
  | None => rp ← reply_fields reply; ret true
  end.

(** Lines 36-67.  The buffer is the slice [hex.DecodeString] returns, whose
    error line 64 discards; as nothing here looks beyond its length, its
    backing array is taken to end with it. *)
Definition fetchBlockTemplate : M StratumServer bool :=
  s ← get;
  '(reply, err) ← rpc (Rpc.GetBlockTemplate json daemon 8 (config_Address s));
  match err with
  | Some _ => ret false
  | None =>
      t ← currentBlockTemplate;
      fresh_work ← novel t reply;
      if fresh_work : bool then
        rp ← reply_fields reply;
        buf ← in_memory (alloc_bytes (fst (Hex.DecodeString (Rpc.Blob rp))));
        let newTemplate :=
          {| diffInt64 := Rpc.Difficulty rp;
             difficulty := Rpc.Difficulty rp;
             height := Rpc.Height rp;
             prevHash := Rpc.PrevHash rp;
             reservedOffset := Rpc.ReservedOffset rp;
             seedHash := Rpc.SeedHash rp;
             nextSeedHash := Rpc.NextSeedHash rp;
             buffer := buf |} in
        p ← in_memory (alloc_template newTemplate);
        modify (Store p);;
        ret true
      else ret false
  end.

End Refresh.

(** The server after [rp] has been published from state [s]. *)
Definition publish (rp : Rpc.GetBlockTemplateReply) (s : StratumServer) : StratumServer :=
  let d := fst (Hex.DecodeString (Rpc.Blob rp)) in
  let q := fresh (dom (arrays (memory s))) in
  let p := fresh (dom (templates (memory s))) in
  {| upstream := upstream s; config_Address := config_Address s;
     blockTemplate := Some p;
     memory :=
       {| arrays := <[q := d]> (arrays (memory s));
          templates :=
            <[p := {| diffInt64 := Rpc.Difficulty rp;
                      height := Rpc.Height rp;
                      difficulty := Rpc.Difficulty rp;
                      reservedOffset := Rpc.ReservedOffset rp;
                      prevHash := Rpc.PrevHash rp;
                      buffer := {| base := q; off := 0; len := length d; cap := length d |};
                      seedHash := Rpc.SeedHash rp;
                      nextSeedHash := Rpc.NextSeedHash rp |}]>
              (templates (memory s)) |} |}.

Definition nil_deref : string := "invalid memory address or nil pointer dereference".

(** [fetchBlockTemplate] publishes [reply]: it returns true and the store then
    points to a template built from the reply's fields whose buffer holds the
    bytes decoded from the reply's blob. *)
Definition publishes (json : Rpc.Json) (daemon : Rpc.Daemon) (s : StratumServer)
    (reply : Rpc.GetBlockTemplateReply) : Prop :=
  exists (s' : StratumServer) (t : BlockTemplate),
    fetchBlockTemplate json daemon s = Returned true s'
    /\ current s' = Some t
    /\ built_from reply t
    /\ holds (memory s') (buffer t) (fst (Hex.DecodeString (Rpc.Blob reply))).

(** [fetchBlockTemplate] returns false and leaves the server as it was. *)
Definition declines (json : Rpc.Json) (daemon : Rpc.Daemon) (s : StratumServer) : Prop :=
  fetchBlockTemplate json daemon s = Returned false s.

End Stratum.

(** * Properties *)

(** ** Machine arithmetic *)

Lemma wrap64_small z : int64_range z -> wrap64 z = z.
Proof.
  unfold int64_range, wrap64. intros Hz.
  rewrite Z.mod_small; lia.
Qed.

Lemma wrap64_range z : int64_range (wrap64 z).
Proof.
  unfold int64_range, wrap64.
  pose proof (Z.mod_pos_bound (z + 2 ^ 63) (2 ^ 64)). lia.
Qed.

Lemma wrap64_add_l a b : wrap64 (wrap64 a + b) = wrap64 (a + b).
Proof.
  unfold wrap64.
  replace ((a + 2 ^ 63) mod 2 ^ 64 - 2 ^ 63 + b + 2 ^ 63)
    with ((a + 2 ^ 63) mod 2 ^ 64 + b) by lia.
  rewrite Z.add_mod_idemp_l by lia.
  f_equal. f_equal. lia.
Qed.

Lemma wrap64_succ_ne z : wrap64 (z + 1) <> z.
Proof.
  unfold wrap64. intros Heq.
  pose proof (Z.div_mod (z + 1 + 2 ^ 63) (2 ^ 64)) as Hdm.
  set (q := (z + 1 + 2 ^ 63) / 2 ^ 64) in *.
  set (m := (z + 1 + 2 ^ 63) mod 2 ^ 64) in *.
  change (2 ^ 64) with 18446744073709551616 in *.
  change (2 ^ 63) with 9223372036854775808 in *.
  lia.
Qed.

(** ** Health monitor *)

Module HealthFacts.
Import Rpc.

Lemma run_app evs evs' r : run (evs ++ evs') r = run evs' (run evs r).
Proof. unfold run. apply fold_left_app. Qed.

Lemma run_snoc evs e r : run (evs ++ [e]) r = apply_report (run evs r) e.
Proof. rewrite run_app. reflexivity. Qed.

Lemma markSick_successRate r : successRate (markSick_pure r) = 0.
Proof. reflexivity. Qed.

Lemma markSick_sickRate r : sickRate (markSick_pure r) = wrap64 (sickRate r + 1).
Proof. reflexivity. Qed.

Lemma markSick_FailsCount r :
  FailsCount (markSick_pure r)
  = if sick r then FailsCount r else wrap64 (FailsCount r + 1).
Proof. reflexivity. Qed.

Lemma markAlive_FailsCount r : FailsCount (markAlive_pure r) = FailsCount r.
Proof. unfold markAlive_pure. destruct (5 <=? _); reflexivity. Qed.

Lemma markAlive_below r :
  wrap64 (successRate r + 1) < 5 ->
  markAlive_pure r
  = set_health r (sickRate r) (wrap64 (successRate r + 1)) (FailsCount r) (sick r).
Proof.
  intros H. unfold markAlive_pure.
  destruct (Z.leb_spec 5 (wrap64 (successRate r + 1))); [lia | reflexivity].
Qed.

Lemma markAlive_full r :
  5 <= wrap64 (successRate r + 1) ->
  markAlive_pure r = set_health r 0 0 (FailsCount r) false.
Proof.
  intros H. unfold markAlive_pure.
  destruct (Z.leb_spec 5 (wrap64 (successRate r + 1))); [reflexivity | lia].
Qed.

(** The success counter of a client that started with [successRate = 0]
    counts the successes at the end of the history, and stays below 5. *)
Lemma successRate_counts_suffix r0 evs :
  successRate r0 = 0 ->
  0 <= successRate (run evs r0) <= 4
  /\ exists pre, evs = pre ++ replicate (Z.to_nat (successRate (run evs r0))) Success.
Proof.
  intros H0. induction evs as [|e evs IH] using rev_ind.
  - simpl. rewrite H0. split; [lia|]. exists []. reflexivity.
  - rewrite run_snoc. destruct IH as [Hr [pre Hpre]].
    set (r := run evs r0) in *. destruct e; simpl.
    + split; [lia|]. exists (evs ++ [Failure]). simpl. by rewrite app_nil_r.
    + assert (Hw : wrap64 (successRate r + 1) = successRate r + 1)
        by (apply wrap64_small; unfold int64_range; lia).
      destruct (Z.lt_ge_cases (successRate r + 1) 5) as [Hlt|Hge].
      * rewrite markAlive_below by lia. simpl. rewrite Hw. split; [lia|].
        exists pre. rewrite Hpre at 1.
        replace (Z.to_nat (successRate r + 1)) with (S (Z.to_nat (successRate r))) by lia.
        rewrite replicate_S_end. by rewrite app_assoc.
      * rewrite markAlive_full by lia. simpl. split; [lia|].
        exists (evs ++ [Success]). by rewrite app_nil_r.
Qed.

Lemma FailsCount_run evs : forall r,
  FailsCount (run evs r)
  = if evs is [] then FailsCount r
    else if (failures_while_not_sick evs r =? 0)%nat then FailsCount r
    else wrap64 (FailsCount r + Z.of_nat (failures_while_not_sick evs r)).
Proof.
  induction evs as [|e evs IH]; intros r; [reflexivity|].
  change (run (e :: evs) r) with (run evs (apply_report r e)).
  rewrite IH. cbn [failures_while_not_sick].
  set (r' := apply_report r e).
  set (n := failures_while_not_sick evs r').
  assert (Hstep : FailsCount r' = FailsCount r /\ (e = Success \/ sick r = true)
                  \/ FailsCount r' = wrap64 (FailsCount r + 1) /\ e = Failure /\ sick r = false).
  { subst r'. destruct e; cbn [apply_report].
    - rewrite markSick_FailsCount. destruct (sick r); auto.
    - rewrite markAlive_FailsCount. auto. }
  destruct Hstep as [[HF Hc]|[HF [-> Hs]]].
  - rewrite HF.
    assert (Hz : (match e with Failure => if sick r then 0 else 1 | Success => 0 end = 0)%nat)
      by (destruct Hc as [->| ->]; [reflexivity | by destruct e]).
    rewrite Hz. simpl Nat.add.
    destruct evs; [reflexivity|]. reflexivity.
  - rewrite HF, Hs. simpl Nat.add.
    change (S n =? 0)%nat with false. cbv iota.
    destruct evs as [|e' evs'].
    + subst n. simpl. f_equal.
    + destruct (Nat.eqb_spec n 0) as [->|Hn].
      * reflexivity.
      * rewrite wrap64_add_l. f_equal. lia.
Qed.

End HealthFacts.

Module Health.
Import Rpc HealthFacts.

(** C3 (as amended).  From the initial health state (not sick, both streaks
    0) five consecutive failure reports make the endpoint sick.  From any sick
    state whose success streak is 0, one to four success reports leave it
    sick, and the fifth consecutive one makes it not sick with both streaks
    back at 0. *)
Theorem sick_after_five_failures_alive_after_five_successes :
  forall r0 r : RPCClient,
    sick r0 = false -> sickRate r0 = 0 -> successRate r0 = 0 ->
    sick r = true -> successRate r = 0 ->
    returned (Sick (run (replicate 5 Failure) r0)) = Some true
    /\ (forall k, (1 <= k <= 4)%nat ->
          returned (Sick (run (replicate k Success) r)) = Some true)
    /\ returned (Sick (run (replicate 5 Success) r)) = Some false
    /\ sickRate (run (replicate 5 Success) r) = 0
    /\ successRate (run (replicate 5 Success) r) = 0.
Proof.
  intros r0 r Hs0 Hf0 Hu0 Hs Hu.
  destruct r0 as [sr0 su0 ? ? ? ? ? ? ? ? sk0 ?].
  destruct r as [sr su ? ? ? ? ? ? ? ? sk ?].
  cbn [sick sickRate successRate] in *. subst.
  split; [vm_compute; reflexivity|]. split.
  - intros k Hk.
    assert (Hcases : k = 1%nat \/ k = 2%nat \/ k = 3%nat \/ k = 4%nat) by lia.
    destruct Hcases as [->|[->|[->| ->]]]; vm_compute; reflexivity.
  - repeat split; vm_compute; reflexivity.
Qed.

Lemma sick_after_five_failures_alive_after_five_successes_witness :
  returned (Sick (run (replicate 5 Failure) local_client)) = Some true
  /\ (forall k, (1 <= k <= 4)%nat ->
        returned (Sick (run (replicate k Success)
                         (run (replicate 5 Failure) local_client))) = Some true)
  /\ returned (Sick (run (replicate 5 Success)
                      (run (replicate 5 Failure) local_client))) = Some false
  /\ sickRate (run (replicate 5 Success) (run (replicate 5 Failure) local_client)) = 0
  /\ successRate (run (replicate 5 Success) (run (replicate 5 Failure) local_client)) = 0.
Proof.
  apply (sick_after_five_failures_alive_after_five_successes
           local_client (run (replicate 5 Failure) local_client));
    vm_compute; reflexivity.
Defined.

(** C3 as stated fails: the state reached by five failures and three
    successes is sick, and four further success reports do not leave it sick
    (the second of them completes the run of five). *)
Lemma sick_state_with_success_progress_recovers_within_four :
  sick (run (replicate 5 Failure ++ replicate 3 Success) local_client) = true
  /\ returned (Sick (run (replicate 4 Success)
                      (run (replicate 5 Failure ++ replicate 3 Success) local_client)))
     = Some false.
Proof. split; vm_compute; reflexivity. Qed.

(** C4.  Every failure report zeroes the success streak and only increments
    the failure streak; a success report that leaves the incremented success
    streak below 5 does not touch the failure streak; one that reaches 5
    resets it to 0, and in any history of a client that started with an empty
    success streak this happens only at the fifth of five uninterrupted
    successes. *)
Theorem hysteresis_is_asymmetric :
  forall r : RPCClient,
    successRate (markSick_pure r) = 0
    /\ sickRate (markSick_pure r) = wrap64 (sickRate r + 1)
    /\ (wrap64 (successRate r + 1) < 5 ->
          sickRate (markAlive_pure r) = sickRate r)
    /\ (5 <= wrap64 (successRate r + 1) ->
          sickRate (markAlive_pure r) = 0)
    /\ (forall r0 evs,
          successRate r0 = 0 -> r = run evs r0 ->
          5 <= wrap64 (successRate r + 1) ->
          exists pre, evs ++ [Success] = pre ++ replicate 5 Success).
Proof.
  intros r. split; [reflexivity|]. split; [reflexivity|]. split; [|split].
  - intros H. by rewrite markAlive_below.
  - intros H. by rewrite markAlive_full.
  - intros r0 evs H0 -> Hfull.
    destruct (successRate_counts_suffix r0 evs H0) as [Hr [pre Hpre]].
    assert (Hw : wrap64 (successRate (run evs r0) + 1) = successRate (run evs r0) + 1)
      by (apply wrap64_small; unfold int64_range; lia).
    assert (H4 : Z.to_nat (successRate (run evs r0)) = 4%nat) by lia.
    exists pre. rewrite Hpre at 1. rewrite H4.
    rewrite (replicate_S_end 4). by rewrite app_assoc.
Qed.

Lemma hysteresis_is_asymmetric_witness :
  sickRate (markAlive_pure (run [Failure; Failure; Success] local_client)) = 2
  /\ sickRate (markAlive_pure
                (run [Failure; Success; Success; Success; Success] local_client)) = 0
  /\ exists pre, [Failure; Success; Success; Success; Success] ++ [Success]
                 = pre ++ replicate 5 Success.
Proof.
  pose (r0 := local_client). fold r0. split; [|split].
  - apply (proj1 (proj2 (proj2 (hysteresis_is_asymmetric
                                  (run [Failure; Failure; Success] r0))))).
    vm_compute. reflexivity.
  - apply (proj1 (proj2 (proj2 (proj2 (hysteresis_is_asymmetric
        (run [Failure; Success; Success; Success; Success] r0)))))).
    vm_compute. discriminate.
  - apply (proj2 (proj2 (proj2 (proj2 (hysteresis_is_asymmetric
        (run [Failure; Success; Success; Success; Success] r0))))) r0).
    + reflexivity.
    + reflexivity.
    + vm_compute. discriminate.
Defined.

(** C8.  A failure report changes [FailsCount] exactly when the endpoint was
    not sick, and then adds 1 (as an int64); a success report never changes
    it.  Hence after any sequence of reports the counter has grown by the
    number of failure reports made while not sick: from 0 it is that number
    as an int64, and it is that number exactly as long as the sum stays below
    2^63. *)
Theorem FailsCount_counts_failures_while_not_sick :
  forall (r : RPCClient) (evs : list report),
    (FailsCount (markSick_pure r) <> FailsCount r <-> sick r = false)
    /\ FailsCount (markSick_pure r)
       = (if sick r then FailsCount r else wrap64 (FailsCount r + 1))
    /\ FailsCount (markAlive_pure r) = FailsCount r
    /\ (FailsCount r = 0 ->
          FailsCount (run evs r) = wrap64 (Z.of_nat (failures_while_not_sick evs r)))
    /\ (int64_range (FailsCount r) ->
          FailsCount r + Z.of_nat (failures_while_not_sick evs r) < 2 ^ 63 ->
          FailsCount (run evs r)
          = FailsCount r + Z.of_nat (failures_while_not_sick evs r)).
Proof.
  intros r evs. split; [|split; [|split; [|split]]].
  - rewrite markSick_FailsCount. destruct (sick r); split; try congruence.
    intros _. apply wrap64_succ_ne.
  - apply markSick_FailsCount.
  - apply markAlive_FailsCount.
  - intros H0. rewrite FailsCount_run, H0. destruct evs as [|e evs]; [reflexivity|].
    destruct (Nat.eqb_spec (failures_while_not_sick (e :: evs) r) 0) as [->|_];
      reflexivity.
  - intros Hr Hlt. rewrite FailsCount_run. destruct evs as [|e evs]; [simpl; lia|].
    destruct (Nat.eqb_spec (failures_while_not_sick (e :: evs) r) 0) as [->|_];
      [lia|].
    apply wrap64_small. unfold int64_range in *. lia.
Qed.

Lemma FailsCount_counts_failures_while_not_sick_witness :
  FailsCount (run (replicate 7 Failure ++ replicate 5 Success ++ [Failure; Success; Failure])
                  local_client)
  = FailsCount local_client
    + Z.of_nat (failures_while_not_sick
                  (replicate 7 Failure ++ replicate 5 Success ++ [Failure; Success; Failure])
                  local_client).
Proof.
  pose (r0 := local_client).
  pose (evs := replicate 7 Failure ++ replicate 5 Success ++ [Failure; Success; Failure]).
  apply (proj2 (proj2 (proj2 (proj2
           (FailsCount_counts_failures_while_not_sick r0 evs))))).
  - vm_compute. split; [discriminate | reflexivity].
  - vm_compute. reflexivity.
Defined.

End Health.

(** ** RPC transport *)

Module TransportFacts.
Import Rpc.

Ltac go_unfold :=
  unfold mbind, M_bind, bind, mret, M_ret, ret, panic, get, modify,
    markSick, markAlive, Sick.

(** The outcome of [doPost], case by case on what the round trip gave. *)
Lemma doPost_outcome daemon url method params r :
  doPost daemon url method params r
  = match daemon (newRequest r url method params) with
    | DoFailed err => Returned (None, Some err) (markSick_pure r)
    | Responded _ (Some e) => Returned (None, Some e) (markSick_pure r)
    | Responded None None =>
        Panicked "invalid memory address or nil pointer dereference" r
    | Responded (Some resp) None =>
        match Error resp with
        | None => Returned (Some resp, None) r
        | Some m =>
            match m !! "message" with
            | Some (IString msg) => Returned (None, Some msg) (markSick_pure r)
            | _ => Panicked "interface conversion: interface {} is not string"
                            (markSick_pure r)
            end
        end
    end.
Proof.
  unfold doPost. go_unfold.
  destruct (daemon _) as [err|[resp|] [e|]]; try reflexivity.
  destruct (Error resp) as [m|]; [|reflexivity]. cbn.
  destruct (m !! "message") as [[]|]; reflexivity.
Qed.

(** A daemon error envelope carrying a string message is surfaced as an error
    with that text, and counted as a failure. *)
Lemma doPost_error_message daemon url method params r resp m msg :
  daemon (newRequest r url method params) = Responded (Some resp) None ->
  Error resp = Some m ->
  m !! "message" = Some (IString msg) ->
  doPost daemon url method params r = Returned (None, Some msg) (markSick_pure r).
Proof. intros Hd He Hm. by rewrite doPost_outcome, Hd, He, Hm. Qed.

(** [doPost] hands back a response only together with a nil error, and then
    the client is untouched. *)
Lemma doPost_returns daemon url method params r res err r' :
  doPost daemon url method params r = Returned (res, err) r' ->
  (exists e, err = Some e /\ res = None /\ r' = markSick_pure r)
  \/ (exists resp, res = Some resp /\ err = None /\ r' = r /\ Error resp = None
      /\ daemon (newRequest r url method params) = Responded (Some resp) None).
Proof.
  rewrite doPost_outcome.
  destruct (daemon _) as [e|[resp|] [e|]] eqn:Hd; try (inversion 1; subst; eauto; fail).
  destruct (Error resp) as [m|] eqn:He.
  - destruct (m !! "message") as [[]|]; inversion 1; subst; eauto.
  - inversion 1; subst. right. eauto 10.
Qed.

Lemma GetBlockTemplate_outcome json daemon reserveSize address r :
  GetBlockTemplate json daemon reserveSize address r
  = match doPost daemon (Url r) "getblocktemplate"
            (blockTemplateParams reserveSize address) r with
    | Returned (_, Some e) r' => Returned (None, Some e) r'
    | Returned (None, None) r' =>
        Panicked "invalid memory address or nil pointer dereference" r'
    | Returned (Some resp, None) r' =>
        match Result resp with
        | Some raw => Returned (unmarshalBlockTemplate json raw) r'
        | None => Returned (None, None) r'
        end
    | Panicked msg r' => Panicked msg r'
    end.
Proof.
  unfold GetBlockTemplate. go_unfold.
  destruct (doPost _ _ _ _ r) as [[[resp|] [e|]] r'|msg r']; try reflexivity.
  destruct (Result resp); reflexivity.
Qed.

Lemma GetInfo_outcome json daemon r :
  GetInfo json daemon r
  = match doPost daemon (Url r) "get_info" (IMap ∅) r with
    | Returned (_, Some e) r' => Returned (None, Some e) r'
    | Returned (None, None) r' =>
        Panicked "invalid memory address or nil pointer dereference" r'
    | Returned (Some resp, None) r' =>
        match Result resp with
        | Some raw => Returned (unmarshalInfo json raw) r'
        | None => Returned (None, None) r'
        end
    | Panicked msg r' => Panicked msg r'
    end.
Proof.
  unfold GetInfo. go_unfold.
  destruct (doPost _ _ _ _ r) as [[[resp|] [e|]] r'|msg r']; try reflexivity.
  destruct (Result resp); reflexivity.
Qed.

Lemma GetBlockHash_outcome json daemon height r :
  GetBlockHash json daemon height r
  = match doPost daemon (Url r) "getblockhash" (IMap ∅) r with
    | Returned (_, Some e) r' => Returned (None, Some e) r'
    | Returned (None, None) r' =>
        Panicked "invalid memory address or nil pointer dereference" r'
    | Returned (Some resp, None) r' =>
        match Result resp with
        | Some raw => Returned (unmarshalBlockHash json raw) r'
        | None => Returned (None, None) r'
        end
    | Panicked msg r' => Panicked msg r'
    end.
Proof.
  unfold GetBlockHash. go_unfold.
  destruct (doPost _ _ _ _ r) as [[[resp|] [e|]] r'|msg r']; try reflexivity.
  destruct (Result resp); reflexivity.
Qed.

End TransportFacts.

Module Transport.
Import Rpc TransportFacts.

(** C2 (the code departs from the claim).  When the error object of the
    envelope has no "message" entry, or one that is not a string, [doPost]
    records the failure and then panics on the unchecked type assertion of
    line 157 instead of returning an error; a body that is the JSON literal
    null makes it panic on line 155.  The envelope with a string message is
    surfaced as an error with that text. *)
Theorem doPost_panics_on_error_without_string_message :
  forall (r : RPCClient) (url method : string) (params : iface),
    doPost (answers error_without_message) url method params r
    = Panicked "interface conversion: interface {} is not string" (markSick_pure r)
    /\ doPost (answers error_with_numeric_message) url method params r
       = Panicked "interface conversion: interface {} is not string" (markSick_pure r)
    /\ doPost (fun _ => Responded None None) url method params r
       = Panicked "invalid memory address or nil pointer dereference" r
    /\ forall X, doPost (answers (error_with_message X)) url method params r
                 = Returned (None, Some X) (markSick_pure r).
Proof.
  intros r url method params.
  split; [|split; [|split]]; try intros X; rewrite doPost_outcome; reflexivity.
Qed.

(** C9.  When the envelope has no error object and its result payload does
    not decode into the reply type of the call, the call returns the
    decoder's error to the caller and the client record, hence [sick],
    [sickRate] and [successRate], is what it was before the call.  This holds
    for each of the three calls that decode a result, [GetBlockTemplate],
    [GetInfo] and [GetBlockHash]; [Check] passes the error on without
    reporting a success, and [UpdateInfo] passes it on without touching the
    cached info. *)
Theorem decode_error_leaves_health_unchanged :
  forall (json : Json) (daemon : Daemon) (r : RPCClient)
         (resp : JSONRpcResp) (raw : RawMessage),
    Error resp = None ->
    Result resp = Some raw ->
    (forall (reserveSize : Z) (address : string)
            (reply : option GetBlockTemplateReply) (e : error),
        daemon (newRequest r (Url r) "getblocktemplate"
                  (blockTemplateParams reserveSize address))
        = Responded (Some resp) None ->
        unmarshalBlockTemplate json raw = (reply, Some e) ->
        GetBlockTemplate json daemon reserveSize address r = Returned (reply, Some e) r
        /\ Check json daemon reserveSize address r = Returned (false, Some e) r)
    /\ (forall (reply : option GetInfoReply) (e : error),
          daemon (newRequest r (Url r) "get_info" (IMap ∅))
          = Responded (Some resp) None ->
          unmarshalInfo json raw = (reply, Some e) ->
          GetInfo json daemon r = Returned (reply, Some e) r
          /\ UpdateInfo json daemon r = Returned (reply, Some e) r)
    /\ (forall (height : Z) (reply : option string) (e : error),
          daemon (newRequest r (Url r) "getblockhash" (IMap ∅))
          = Responded (Some resp) None ->
          unmarshalBlockHash json raw = (reply, Some e) ->
          GetBlockHash json daemon height r = Returned (reply, Some e) r).
Proof.
  intros json daemon r resp raw He Hr. split; [|split].
  - intros reserveSize address reply e Hd Hu.
    assert (HG : GetBlockTemplate json daemon reserveSize address r
                 = Returned (reply, Some e) r).
    { rewrite GetBlockTemplate_outcome, doPost_outcome, Hd, He, Hr, Hu. reflexivity. }
    split; [exact HG|].
    unfold Check. go_unfold. rewrite HG. reflexivity.
  - intros reply e Hd Hu.
    assert (HG : GetInfo json daemon r = Returned (reply, Some e) r).
    { rewrite GetInfo_outcome, doPost_outcome, Hd, He, Hr, Hu. reflexivity. }
    split; [exact HG|].
    unfold UpdateInfo. go_unfold. rewrite HG. reflexivity.
  - intros height reply e Hd Hu.
    rewrite GetBlockHash_outcome, doPost_outcome, Hd, He, Hr, Hu. reflexivity.
Qed.

Lemma decode_error_leaves_health_unchanged_witness :
  (GetBlockTemplate
     (Json_at "[]" (Some zero_reply,
                    Some "json: cannot unmarshal array into Go value of type rpc.GetBlockTemplateReply"))
     (answers (result_envelope "[]")) 8 "wallet" local_client
   = Returned (Some zero_reply,
               Some "json: cannot unmarshal array into Go value of type rpc.GetBlockTemplateReply")
              local_client
   /\ Check
        (Json_at "[]" (Some zero_reply,
                       Some "json: cannot unmarshal array into Go value of type rpc.GetBlockTemplateReply"))
        (answers (result_envelope "[]")) 8 "wallet" local_client
      = Returned (false,
                  Some "json: cannot unmarshal array into Go value of type rpc.GetBlockTemplateReply")
                 local_client)
  /\ (GetInfo
        (Json_at "[]" (Some zero_reply,
                       Some "json: cannot unmarshal array into Go value of type rpc.GetBlockTemplateReply"))
        (answers (result_envelope "[]")) local_client
      = Returned (None, Some "unexpected end of JSON input") local_client
      /\ UpdateInfo
           (Json_at "[]" (Some zero_reply,
                          Some "json: cannot unmarshal array into Go value of type rpc.GetBlockTemplateReply"))
           (answers (result_envelope "[]")) local_client
         = Returned (None, Some "unexpected end of JSON input") local_client)
  /\ GetBlockHash
       (Json_at "[]" (Some zero_reply,
                      Some "json: cannot unmarshal array into Go value of type rpc.GetBlockTemplateReply"))
       (answers (result_envelope "[]")) 100 local_client
     = Returned (None, Some "unexpected end of JSON input") local_client.
Proof.
  destruct (decode_error_leaves_health_unchanged
              (Json_at "[]" (Some zero_reply,
                             Some "json: cannot unmarshal array into Go value of type rpc.GetBlockTemplateReply"))
              (answers (result_envelope "[]")) local_client
              (result_envelope "[]") "[]" eq_refl eq_refl) as (H1 & H2 & H3).
  split; [|split].
  - apply (H1 8 "wallet"); reflexivity.
  - apply H2; reflexivity.
  - apply (H3 100); reflexivity.
Defined.

End Transport.

(** ** Memory operations *)

Module MemoryFacts.
Import Stratum.

Lemma alloc_bytes_fresh (m : Memory) :
  arrays m !! fresh (dom (arrays m)) = None.
Proof. apply not_elem_of_dom, is_fresh. Qed.

Lemma alloc_bytes_eq bs m :
  alloc_bytes bs m
  = Returned {| base := fresh (dom (arrays m)); off := 0;
                len := length bs; cap := length bs |}
             (set_arrays (<[fresh (dom (arrays m)) := bs]> (arrays m)) m).
Proof. reflexivity. Qed.

Lemma hoare_bind {S A B} (P : S -> Prop) (c : M S A) (Q : A -> S -> Prop)
    (k : A -> M S B) (Q' : B -> S -> Prop) (E : S -> Prop) :
  hoare P c Q E -> (forall a, hoare (Q a) (k a) Q' E) -> hoare P (c ≫= k) Q' E.
Proof.
  intros Hc Hk s HP. specialize (Hc s HP).
  unfold mbind, M_bind, bind. destruct (c s) as [a s'|msg s'].
  - by apply Hk.
  - exact Hc.
Qed.

Lemma hoare_ret {S A} (P : S -> Prop) (a : A) (Q : A -> S -> Prop) (E : S -> Prop) :
  (forall s, P s -> Q a s) -> hoare P (ret a) Q E.
Proof. intros H s HP. by apply H. Qed.

Lemma hoare_pure {S A} (phi : Prop) (P : S -> Prop) (c : M S A) Q E :
  (phi -> hoare P c Q E) -> hoare (fun s => phi /\ P s) c Q E.
Proof. intros H s [Hphi HP]. by apply H. Qed.

(** Operations that leave the memory as it is. *)
Lemma hoare_deref (P E : Memory -> Prop) b :
  (forall m, P m -> E m) ->
  hoare P (deref b) (fun t m => templates m !! b = Some t /\ P m) E.
Proof. intros HE m HP. unfold deref. destruct (templates m !! b) eqn:H; auto. Qed.

Lemma hoare_load (P E : Memory -> Prop) s :
  (forall m, P m -> E m) ->
  hoare P (load s) (fun bs m => contents m s = Some bs /\ P m) E.
Proof. intros HE m HP. unfold load. destruct (contents m s) eqn:H; auto. Qed.

Lemma hoare_slice_lo_hi (P E : Memory -> Prop) s lo hi :
  (forall m, P m -> E m) ->
  hoare P (slice_lo_hi s lo hi)
    (fun w m => (base w = base s /\ 0 <= lo <= hi /\ hi <= Z.of_nat (cap s)
                 /\ off w = (off s + Z.to_nat lo)%nat /\ len w = Z.to_nat (hi - lo))
                /\ P m) E.
Proof.
  intros HE m HP. unfold slice_lo_hi.
  destruct (Z.leb_spec 0 lo), (Z.leb_spec lo hi), (Z.leb_spec hi (Z.of_nat (cap s)));
    simpl; auto.
  repeat split; auto; lia.
Qed.

Lemma hoare_slice_lo (P E : Memory -> Prop) s lo :
  (forall m, P m -> E m) ->
  hoare P (slice_lo s lo)
    (fun w m => (base w = base s /\ 0 <= lo <= Z.of_nat (len s)
                 /\ off w = (off s + Z.to_nat lo)%nat
                 /\ len w = (len s - Z.to_nat lo)%nat)
                /\ P m) E.
Proof.
  intros HE m HP. unfold slice_lo.
  destruct (Z.leb_spec 0 lo), (Z.leb_spec lo (Z.of_nat (len s))); simpl; auto.
Qed.

Lemma hoare_alloc_keeps T0 A0 (P : Memory -> Prop) bs :
  (forall m, P m -> keeps T0 A0 m) ->
  hoare P (alloc_bytes bs)
    (fun s m => A0 !! base s = None /\ keeps T0 A0 m) (keeps T0 A0).
Proof.
  intros HP m Hm. destruct (HP m Hm) as [HT HA]. rewrite alloc_bytes_eq.
  assert (Hfresh : A0 !! fresh (dom (arrays m)) = None).
  { destruct (A0 !! fresh (dom (arrays m))) as [arr|] eqn:Hl; [|done].
    pose proof (lookup_weaken _ _ _ _ Hl HA) as Hl'.
    by rewrite alloc_bytes_fresh in Hl'. }
  split; [exact Hfresh|]. split; [exact HT|].
  simpl. by apply insert_subseteq_r.
Qed.

Lemma hoare_copy_keeps T0 A0 (P : Memory -> Prop) dst src :
  (forall m, P m -> A0 !! base dst = None /\ keeps T0 A0 m) ->
  hoare P (copy dst src) (fun _ => keeps T0 A0) (keeps T0 A0).
Proof.
  intros HP m Hm. destruct (HP m Hm) as [Hdst [HT HA]]. unfold copy.
  destruct (contents m src); [|by split].
  destruct (arrays m !! base dst); [|by split].
  split; [exact HT|]. simpl. by apply insert_subseteq_r.
Qed.

(** [scratch] and [nextBlob] write only into arrays they allocate. *)
Lemma scratch_keeps T0 A0 b extraNonce instanceId :
  hoare (keeps T0 A0) (scratch b extraNonce instanceId)
    (fun _ => keeps T0 A0) (keeps T0 A0).
Proof.
  unfold scratch.
  eapply hoare_bind; [by apply hoare_alloc_keeps | intros extraBuff].
  apply hoare_pure. intros _.
  eapply hoare_bind; [by apply hoare_deref | intros t].
  eapply hoare_bind;
    [apply hoare_alloc_keeps; by intros m [_ Hk] | intros blobBuff].
  apply hoare_pure. intros Hfresh.
  eapply hoare_bind; [by apply hoare_copy_keeps | intros ?].
  eapply hoare_bind; [by apply hoare_slice_lo_hi | intros w].
  apply hoare_pure. intros (Hw & _).
  eapply hoare_bind;
    [apply hoare_copy_keeps; intros m Hk; by rewrite Hw | intros ?].
  eapply hoare_bind; [by apply hoare_slice_lo | intros w'].
  apply hoare_pure. intros (Hw' & _).
  eapply hoare_bind;
    [apply hoare_copy_keeps; intros m Hk; by rewrite Hw' | intros ?].
  by apply hoare_ret.
Qed.

Lemma nextBlob_keeps ConvertBlob T0 A0 b extraNonce instanceId :
  hoare (keeps T0 A0) (nextBlob ConvertBlob b extraNonce instanceId)
    (fun _ => keeps T0 A0) (keeps T0 A0).
Proof.
  unfold nextBlob.
  eapply hoare_bind; [apply scratch_keeps | intros blobBuff].
  eapply hoare_bind; [by apply hoare_load | intros bytes].
  apply hoare_ret. by intros m [_ Hk].
Qed.

Lemma hoare_alloc_exact B T (E : Memory -> Prop) bs :
  hoare (state B T) (alloc_bytes bs)
    (fun s m => s = {| base := fresh (dom B); off := 0;
                       len := length bs; cap := length bs |}
                /\ state (<[fresh (dom B) := bs]> B) T m) E.
Proof. intros m [<- <-]. rewrite alloc_bytes_eq. by repeat split. Qed.

Lemma hoare_deref_exact B T (E : Memory -> Prop) b t :
  T !! b = Some t ->
  hoare (state B T) (deref b) (fun t' m => t' = t /\ state B T m) E.
Proof. intros Ht m [<- <-]. unfold deref. rewrite Ht. by repeat split. Qed.

Lemma hoare_copy_exact B T (E : Memory -> Prop) dst src arr arrs :
  B !! base dst = Some arr ->
  B !! base src = Some arrs ->
  hoare (state B T) (copy dst src)
    (fun _ => state (<[base dst :=
                        overwrite arr (off dst)
                          (take (Nat.min (len dst) (len src))
                                (take (len src) (drop (off src) arrs)))]> B) T) E.
Proof.
  intros Hd Hs m [<- <-]. unfold copy, contents. rewrite Hs, Hd. simpl.
  by split.
Qed.

Lemma hoare_slice_lo_hi_exact (P E : Memory -> Prop) s lo hi :
  0 <= lo <= hi -> hi <= Z.of_nat (cap s) ->
  hoare P (slice_lo_hi s lo hi)
    (fun w m => w = {| base := base s; off := off s + Z.to_nat lo;
                       len := Z.to_nat (hi - lo); cap := cap s - Z.to_nat lo |}
                /\ P m) E.
Proof.
  intros H1 H2 m HP. unfold slice_lo_hi.
  destruct (Z.leb_spec 0 lo), (Z.leb_spec lo hi), (Z.leb_spec hi (Z.of_nat (cap s)));
    try lia.
  by split.
Qed.

Lemma hoare_slice_lo_exact (P E : Memory -> Prop) s lo :
  0 <= lo <= Z.of_nat (len s) ->
  hoare P (slice_lo s lo)
    (fun w m => w = {| base := base s; off := off s + Z.to_nat lo;
                       len := len s - Z.to_nat lo; cap := cap s - Z.to_nat lo |}
                /\ P m) E.
Proof.
  intros H1 m HP. unfold slice_lo.
  destruct (Z.leb_spec 0 lo), (Z.leb_spec lo (Z.of_nat (len s))); try lia.
  by split.
Qed.

(** *** What the two writes leave in the buffer *)

Lemma overwrite_whole (arr bs : list byte) :
  length bs = length arr -> overwrite arr 0 bs = bs.
Proof.
  intros H. unfold overwrite. simpl. rewrite drop_ge by lia. apply app_nil_r.
Qed.

Lemma overwrite_reserved (buf be id : list byte) (R : nat) :
  length be = 4%nat -> length id = 3%nat -> (R + 7 <= length buf)%nat ->
  overwrite (overwrite buf (R + 4) id) R be
  = take R buf ++ be ++ id ++ drop (R + 7) buf.
Proof.
  intros Hbe Hid HR. unfold overwrite.
  assert (Hlen : length (take (R + 4) buf) = (R + 4)%nat)
    by (rewrite length_take; lia).
  f_equal.
  - rewrite take_app_le by lia. rewrite take_take. f_equal. lia.
  - f_equal. rewrite Hbe, Hid.
    rewrite drop_app_length' by lia.
    f_equal. f_equal. lia.
Qed.

End MemoryFacts.

(** ** Blob mutation *)

Module BlobFacts.
Import Stratum MemoryFacts.

(** A run of [scratch] from the arrays [A] and templates [T], for a reserved
    offset that is in range: it returns the scratch slice, whose array then
    holds the template's bytes with the nonce and the instance id written
    over the reserved range. *)
Lemma scratch_exact A T b t n iid arrb arri :
  T !! b = Some t ->
  A !! base (buffer t) = Some arrb ->
  length (take (len (buffer t)) (drop (off (buffer t)) arrb)) = len (buffer t) ->
  A !! base iid = Some arri ->
  length (take (len iid) (drop (off iid) arri)) = 3%nat ->
  len iid = 3%nat ->
  Z.of_nat (len (buffer t)) < 2 ^ 63 ->
  0 <= reservedOffset t ->
  reservedOffset t + 7 <= Z.of_nat (len (buffer t)) ->
  hoare (state A T) (scratch b n iid)
    (fun s m' =>
       exists B', state B' T m'
         /\ B' !! base s
            = Some (take (Z.to_nat (reservedOffset t))
                       (take (len (buffer t)) (drop (off (buffer t)) arrb))
                    ++ uint32_be n
                    ++ take (len iid) (drop (off iid) arri)
                    ++ drop (Z.to_nat (reservedOffset t) + 7)
                         (take (len (buffer t)) (drop (off (buffer t)) arrb)))
         /\ off s = 0%nat /\ len s = len (buffer t))
    (fun _ => False).
Proof.
  intros HT Hb Hbl Hi Hil Hi3 HL H0 H7.
  set (buf := take (len (buffer t)) (drop (off (buffer t)) arrb)) in *.
  set (idb := take (len iid) (drop (off iid) arri)) in *.
  set (L := len (buffer t)) in *.
  unfold scratch.
  eapply hoare_bind; [apply hoare_alloc_exact | intros extraBuff].
  apply hoare_pure; intros ->.
  eapply hoare_bind; [by apply hoare_deref_exact | intros t'].
  apply hoare_pure; intros ->.
  unfold make.
  eapply hoare_bind; [apply hoare_alloc_exact | intros blobBuff].
  apply hoare_pure; intros ->.
  set (p1 := fresh (dom A)).
  set (B1 := <[p1 := uint32_be n]> A).
  set (p2 := fresh (dom B1)).
  assert (Hp1 : A !! p1 = None) by apply not_elem_of_dom, is_fresh.
  assert (Hp2 : B1 !! p2 = None) by apply not_elem_of_dom, is_fresh.
  assert (Hp2A : A !! p2 = None /\ p1 <> p2) by (by apply lookup_insert_None in Hp2).
  destruct Hp2A as [Hp2A Hp12].
  assert (Hb1 : base (buffer t) <> p1) by congruence.
  assert (Hb2 : base (buffer t) <> p2) by congruence.
  assert (Hi1 : base iid <> p1) by congruence.
  assert (Hi2 : base iid <> p2) by congruence.
  set (R := Z.to_nat (reservedOffset t)) in *.
  assert (Hw4 : wrap64 (reservedOffset t + 4) = reservedOffset t + 4)
    by (apply wrap64_small; unfold int64_range; lia).
  assert (Hw7 : wrap64 (reservedOffset t + 7) = reservedOffset t + 7)
    by (apply wrap64_small; unfold int64_range; lia).
  rewrite Hw4, Hw7. fold L. rewrite length_replicate.
  eapply hoare_bind.
  { eapply hoare_copy_exact; cbn [base].
    - apply lookup_insert_eq.
    - rewrite lookup_insert_ne by done. unfold B1.
      rewrite lookup_insert_ne by done. exact Hb. }
  intros ?. cbn [base off len cap]. fold L buf.
  rewrite Nat.min_id, insert_insert_eq, (take_ge buf) by lia.
  rewrite overwrite_whole by (rewrite length_replicate; lia).
  eapply hoare_bind;
    [apply hoare_slice_lo_hi_exact; cbn [cap]; lia | intros w].
  apply hoare_pure; intros ->.
  eapply hoare_bind.
  { eapply hoare_copy_exact; cbn [base].
    - apply lookup_insert_eq.
    - rewrite lookup_insert_ne by done. unfold B1.
      rewrite lookup_insert_ne by done. exact Hi. }
  intros ?. cbn [base off len cap]. fold idb.
  rewrite insert_insert_eq.
  eapply hoare_bind;
    [apply hoare_slice_lo_exact; cbn [len]; lia | intros w'].
  apply hoare_pure; intros ->.
  eapply hoare_bind.
  { eapply hoare_copy_exact; cbn [base].
    - apply lookup_insert_eq.
    - rewrite lookup_insert_ne by done. unfold B1. apply lookup_insert_eq. }
  intros ?. cbn [base off len cap].
  rewrite insert_insert_eq.
  apply hoare_ret. intros m' Hst. eexists. split; [exact Hst|].
  cbn [base off len]. rewrite lookup_insert_eq.
  split; [|done]. f_equal.
  replace (0 + Z.to_nat (reservedOffset t + 4))%nat with (R + 4)%nat by lia.
  replace (0 + Z.to_nat (reservedOffset t))%nat with R by lia.
  rewrite (take_ge idb) by lia.
  change (length (uint32_be n)) with 4%nat. rewrite drop_0.
  rewrite !(take_ge (uint32_be n)) by (cbn [length uint32_be]; lia).
  apply overwrite_reserved; [reflexivity | exact Hil | lia].
Qed.

Lemma to_N_byte_of_N k : Byte.to_N (Hex.byte_of_N k) = (k mod 256)%N.
Proof.
  unfold Hex.byte_of_N.
  destruct (Byte.of_N (k mod 256)) as [c|] eqn:Hc.
  - by apply Byte.to_of_N.
  - apply Byte.of_N_None_iff in Hc.
    pose proof (N.mod_upper_bound k 256). lia.
Qed.

Lemma to_N_byte_of_Z z : Z.of_N (Byte.to_N (byte_of_Z z)) = z mod 256.
Proof.
  unfold byte_of_Z. rewrite to_N_byte_of_N.
  pose proof (Z.mod_pos_bound z 256).
  rewrite N.mod_small by lia. lia.
Qed.

(** [uint32_be] is the big-endian encoding. *)
Lemma big_endian_uint32_be n : 0 <= n < 2 ^ 32 -> big_endian (uint32_be n) = n.
Proof.
  intros Hn. unfold big_endian, uint32_be. cbn [fold_left].
  rewrite !to_N_byte_of_Z, !Z.shiftr_div_pow2 by lia.
  change (2 ^ 24) with 16777216. change (2 ^ 16) with 65536.
  change (2 ^ 8) with 256. change (2 ^ 32) with 4294967296 in Hn.
  Z.to_euclidean_division_equations. lia.
Qed.

Lemma scratch_load_exact m b t n iid buf idb :
  templates m !! b = Some t ->
  holds m (buffer t) buf ->
  holds m iid idb -> len iid = 3%nat ->
  Z.of_nat (len (buffer t)) < 2 ^ 63 ->
  0 <= reservedOffset t ->
  reservedOffset t + 7 <= Z.of_nat (len (buffer t)) ->
  exists m',
    (scratch b n iid ≫= load) m
    = Returned (mutated buf (Z.to_nat (reservedOffset t)) n idb) m'.
Proof.
  intros HT [Hb Hbl] [Hi Hil] Hi3 HL H0 H7.
  unfold contents in Hb, Hi.
  destruct (arrays m !! base (buffer t)) as [arrb|] eqn:Hab; [|done].
  destruct (arrays m !! base iid) as [arri|] eqn:Hai; [|done].
  simpl in Hb, Hi. injection Hb as <-. injection Hi as <-.
  assert (H : hoare (state (arrays m) (templates m)) (scratch b n iid ≫= load)
                (fun bs _ => bs = mutated (take (len (buffer t)) (drop (off (buffer t)) arrb))
                                    (Z.to_nat (reservedOffset t)) n
                                    (take (len iid) (drop (off iid) arri)))
                (fun _ => False)).
  { eapply hoare_bind.
    - eapply (scratch_exact _ _ b t n iid arrb arri); eauto. lia.
    - intros s m1 (B' & [HB HT'] & Hl & Ho & Hlen).
      unfold load, contents. rewrite HB, Hl. simpl.
      rewrite Ho, Hlen, drop_0. apply take_ge.
      unfold mutated. rewrite !length_app, length_take, length_drop.
      change (length (uint32_be n)) with 4%nat. lia. }
  specialize (H m (conj eq_refl eq_refl)).
  destruct ((scratch b n iid ≫= load) m) as [bs m'|]; [|done].
  subst bs. by exists m'.
Qed.

Lemma mutated_length buf R n idb :
  length idb = 3%nat -> (R + 7 <= length buf)%nat ->
  length (mutated buf R n idb) = length buf.
Proof.
  intros Hid HR. unfold mutated.
  rewrite !length_app, length_take, length_drop.
  change (length (uint32_be n)) with 4%nat. lia.
Qed.

Lemma mutated_outside buf R n idb (i : nat) :
  length idb = 3%nat -> (R + 7 <= length buf)%nat ->
  (i < R \/ R + 7 <= i)%nat ->
  mutated buf R n idb !! i = buf !! i.
Proof.
  intros Hid HR [Hi|Hi]; unfold mutated.
  - rewrite lookup_app_l by (rewrite length_take; lia).
    by rewrite lookup_take_lt.
  - assert (Hl : length (take R buf) = R) by (rewrite length_take; lia).
    rewrite lookup_app_r by lia.
    rewrite lookup_app_r by (change (length (uint32_be n)) with 4%nat; lia).
    rewrite lookup_app_r by (change (length (uint32_be n)) with 4%nat; lia).
    rewrite lookup_drop. f_equal.
    change (length (uint32_be n)) with 4%nat. lia.
Qed.

Lemma mutated_nonce buf R n idb :
  (R + 7 <= length buf)%nat ->
  take 4 (drop R (mutated buf R n idb)) = uint32_be n.
Proof.
  intros HR. unfold mutated.
  rewrite drop_app_length' by (rewrite length_take; lia).
  by rewrite take_app_length' by reflexivity.
Qed.

Lemma mutated_instance buf R n idb :
  length idb = 3%nat -> (R + 7 <= length buf)%nat ->
  take 3 (drop (R + 4) (mutated buf R n idb)) = idb.
Proof.
  intros Hid HR. unfold mutated.
  rewrite (app_assoc (take R buf)).
  rewrite drop_app_length'
    by (rewrite length_app, length_take; change (length (uint32_be n)) with 4%nat; lia).
  by rewrite take_app_length' by done.
Qed.

Lemma mutated_region_eq t buf n idb :
  0 <= reservedOffset t ->
  length idb = 3%nat -> (Z.to_nat (reservedOffset t) + 7 <= length buf)%nat ->
  mutated_region t (mutated buf (Z.to_nat (reservedOffset t)) n idb)
  = uint32_be n ++ idb.
Proof.
  intros H0 Hid HR. unfold mutated_region, mutated.
  rewrite drop_app_length' by (rewrite length_take; lia).
  rewrite (app_assoc (uint32_be n)).
  by rewrite take_app_length'
    by (rewrite length_app; change (length (uint32_be n)) with 4%nat; lia).
Qed.

End BlobFacts.

Module Blob.
Import Stratum MemoryFacts BlobFacts.

(** C6 (as amended).  For a template whose reserved offset is not negative
    and leaves seven bytes in the buffer, a 32-bit extra nonce and a
    three-byte instance id, [nextBlob] returns, and the blob it hands to the
    transform has the length of the template's buffer, agrees with it at
    every index outside [reservedOffset, reservedOffset+7), carries the
    big-endian encoding of the extra nonce in the first four bytes of that
    range and the instance id in the last three; a different extra nonce gives
    different bytes in the range. *)
Theorem nextBlob_rewrites_only_the_reserved_bytes :
  forall (ConvertBlob : list byte -> list byte) (m : Memory) (b : loc)
         (t : BlockTemplate) (buf idb : list byte) (instanceId : slice)
         (extraNonce : Z),
    templates m !! b = Some t ->
    holds m (buffer t) buf ->
    holds m instanceId idb ->
    len instanceId = 3%nat ->
    Z.of_nat (len (buffer t)) < 2 ^ 63 ->
    0 <= reservedOffset t ->
    reservedOffset t + 7 <= Z.of_nat (len (buffer t)) ->
    0 <= extraNonce < 2 ^ 32 ->
    exists (blob : list byte) (m' : Memory),
      (scratch b extraNonce instanceId ≫= load) m = Returned blob m'
      /\ nextBlob ConvertBlob b extraNonce instanceId m
         = Returned (Hex.EncodeToString (ConvertBlob blob)) m'
      /\ length blob = length buf
      /\ (forall i : nat,
            Z.of_nat i < reservedOffset t \/ reservedOffset t + 7 <= Z.of_nat i ->
            blob !! i = buf !! i)
      /\ take 4 (drop (Z.to_nat (reservedOffset t)) blob) = uint32_be extraNonce
      /\ big_endian (uint32_be extraNonce) = extraNonce
      /\ take 3 (drop (Z.to_nat (reservedOffset t) + 4) blob) = idb
      /\ (forall extraNonce' : Z,
            0 <= extraNonce' < 2 ^ 32 -> extraNonce' <> extraNonce ->
            exists (blob' : list byte) (m'' : Memory),
              (scratch b extraNonce' instanceId ≫= load) m = Returned blob' m''
              /\ mutated_region t blob' <> mutated_region t blob).
Proof.
  intros ConvertBlob m b t buf idb iid n HT Hb Hi Hi3 HL H0 H7 Hn.
  assert (Hbl : length buf = len (buffer t)) by apply Hb.
  assert (Hil : length idb = 3%nat) by (destruct Hi; congruence).
  assert (HR : (Z.to_nat (reservedOffset t) + 7 <= length buf)%nat) by lia.
  destruct (scratch_load_exact m b t n iid buf idb) as [m' Hrun]; auto.
  exists (mutated buf (Z.to_nat (reservedOffset t)) n idb), m'.
  split; [exact Hrun|]. split.
  { unfold nextBlob. revert Hrun. unfold mbind, M_bind, bind.
    destruct (scratch b n iid m) as [s m1|]; [|done].
    destruct (load s m1) as [bs m2|]; [|done]. by intros [= -> ->]. }
  split; [by apply mutated_length|].
  split; [intros i Hi'; apply mutated_outside; auto; lia|].
  split; [by apply mutated_nonce|].
  split; [by apply big_endian_uint32_be|].
  split; [by apply mutated_instance|].
  intros n' Hn' Hne.
  destruct (scratch_load_exact m b t n' iid buf idb) as [m'' Hrun']; auto.
  exists (mutated buf (Z.to_nat (reservedOffset t)) n' idb), m''.
  split; [exact Hrun'|].
  rewrite !mutated_region_eq by auto.
  intros Heq. apply app_inv_tail in Heq. apply Hne.
  rewrite <- (big_endian_uint32_be n'), <- (big_endian_uint32_be n) by done.
  by rewrite Heq.
Qed.

Lemma nextBlob_rewrites_only_the_reserved_bytes_witness :
  exists (blob : list byte) (m' : Memory),
    (scratch 1%positive 16909060 sample_instanceId ≫= load) sample_memory
    = Returned blob m'
    /\ nextBlob (fun bs => bs) 1%positive 16909060 sample_instanceId sample_memory
       = Returned (Hex.EncodeToString blob) m'
    /\ length blob = 10%nat
    /\ (forall i : nat,
          Z.of_nat i < 2 \/ 2 + 7 <= Z.of_nat i ->
          blob !! i = [x01; x02; x03; x04; x05; x06; x07; x08; x09; x0a] !! i)
    /\ take 4 (drop 2 blob) = uint32_be 16909060
    /\ big_endian (uint32_be 16909060) = 16909060
    /\ take 3 (drop (2 + 4) blob) = [xaa; xbb; xcc]
    /\ (forall extraNonce' : Z,
          0 <= extraNonce' < 2 ^ 32 -> extraNonce' <> 16909060 ->
          exists (blob' : list byte) (m'' : Memory),
            (scratch 1%positive extraNonce' sample_instanceId ≫= load) sample_memory
            = Returned blob' m''
            /\ mutated_region (sample_template 2 "abc") blob'
               <> mutated_region (sample_template 2 "abc") blob).
Proof.
  apply (nextBlob_rewrites_only_the_reserved_bytes (fun bs => bs) sample_memory
           1%positive (sample_template 2 "abc")
           [x01; x02; x03; x04; x05; x06; x07; x08; x09; x0a] [xaa; xbb; xcc]
           sample_instanceId 16909060).
  - reflexivity.
  - split; reflexivity.
  - split; reflexivity.
  - reflexivity.
  - reflexivity.
  - discriminate.
  - discriminate.
  - split; [discriminate | reflexivity].
Defined.

(** C6 as stated fails: the reserved offset is a signed [int], and with the
    offset -1 the bound reservedOffset + 7 <= len(buffer) holds while
    [blobBuff[b.reservedOffset:]] is out of range, so [nextBlob] panics and
    hands nothing to the transform. *)
Lemma nextBlob_panics_on_negative_reserved_offset :
  templates sample_memory !! 2%positive = Some (sample_template (-1) "abc")
  /\ holds sample_memory (buffer (sample_template (-1) "abc"))
       [x01; x02; x03; x04; x05; x06; x07; x08; x09; x0a]
  /\ holds sample_memory sample_instanceId [xaa; xbb; xcc]
  /\ reservedOffset (sample_template (-1) "abc") + 7
     <= Z.of_nat (len (buffer (sample_template (-1) "abc")))
  /\ returned (nextBlob (fun bs => bs) 2%positive 16909060 sample_instanceId
                 sample_memory) = None
  /\ returned ((scratch 2%positive 16909060 sample_instanceId ≫= load) sample_memory)
     = None.
Proof.
  split; [reflexivity|]. split; [split; reflexivity|].
  split; [split; reflexivity|]. split; [discriminate|].
  split; vm_compute; reflexivity.
Qed.

(** C7.  Whatever the template, extra nonce and instance id, and whether it
    returns or panics, [nextBlob] leaves every template object and every
    array that existed before the call as it was; in particular the template
    it was called on has the same fields and its buffer the same bytes. *)
Theorem nextBlob_never_mutates_the_template :
  forall (ConvertBlob : list byte -> list byte) (m : Memory) (b : loc)
         (extraNonce : Z) (instanceId : slice),
    templates (final_state (nextBlob ConvertBlob b extraNonce instanceId m))
    = templates m
    /\ arrays m ⊆ arrays (final_state (nextBlob ConvertBlob b extraNonce instanceId m))
    /\ forall (t : BlockTemplate) (buf : list byte),
         templates m !! b = Some t ->
         contents m (buffer t) = Some buf ->
         templates (final_state (nextBlob ConvertBlob b extraNonce instanceId m)) !! b
         = Some t
         /\ contents (final_state (nextBlob ConvertBlob b extraNonce instanceId m))
              (buffer t) = Some buf.
Proof.
  intros ConvertBlob m b n iid.
  pose proof (nextBlob_keeps ConvertBlob (templates m) (arrays m) b n iid m
                (conj eq_refl (reflexivity _))) as H.
  assert (Hk : keeps (templates m) (arrays m)
                 (final_state (nextBlob ConvertBlob b n iid m)))
    by (destruct (nextBlob ConvertBlob b n iid m); exact H).
  destruct Hk as [HT HA]. split; [exact HT|]. split; [exact HA|].
  intros t buf Ht Hc. split; [by rewrite HT|].
  unfold contents in *.
  destruct (arrays m !! base (buffer t)) as [arr|] eqn:Harr; [|done].
  by rewrite (lookup_weaken _ _ _ _ Harr HA).
Qed.

Lemma nextBlob_never_mutates_the_template_witness :
  templates (final_state (nextBlob (fun bs => bs) 1%positive 16909060
                            sample_instanceId sample_memory)) !! 1%positive
  = Some (sample_template 2 "abc")
  /\ contents (final_state (nextBlob (fun bs => bs) 1%positive 16909060
                              sample_instanceId sample_memory))
       (buffer (sample_template 2 "abc"))
     = Some [x01; x02; x03; x04; x05; x06; x07; x08; x09; x0a].
Proof.
  apply (proj2 (proj2 (nextBlob_never_mutates_the_template (fun bs => bs)
                         sample_memory 1%positive 16909060 sample_instanceId)));
    reflexivity.
Defined.

End Blob.

(** ** Template refresh *)

Module RefreshFacts.
Import Stratum MemoryFacts TransportFacts.

Lemma fetchBlockTemplate_outcome json daemon s :
  fetchBlockTemplate json daemon s
  = match Rpc.GetBlockTemplate json daemon 8 (config_Address s) (upstream s) with
    | Panicked msg r' => Panicked msg (set_upstream r' s)
    | Returned (_, Some _) r' => Returned false (set_upstream r' s)
    | Returned (reply, None) r' =>
        let s1 := set_upstream r' s in
        match blockTemplate s with
        | Some p =>
            match templates (memory s) !! p with
            | None => Panicked nil_deref s1
            | Some cur =>
                match reply with
                | None => Panicked nil_deref s1
                | Some rp =>
                    if String.eqb (prevHash cur) (Rpc.PrevHash rp)
                    then if (String.length (Rpc.PrevHash rp) =? 0)%nat
                            && (Rpc.Height rp >? height cur)
                         then Returned true (publish rp s1)
                         else Returned false s1
                    else Returned true (publish rp s1)
                end
            end
        | None =>
            match reply with
            | None => Panicked nil_deref s1
            | Some rp => Returned true (publish rp s1)
            end
        end
    end.
Proof.
  unfold fetchBlockTemplate, rpc, zoom.
  unfold mbind at 1 2. unfold M_bind, bind, get.
  destruct (Rpc.GetBlockTemplate json daemon 8 (config_Address s) (upstream s))
    as [[reply [e|]] r'|msg r']; try reflexivity.
  unfold currentBlockTemplate, novel, in_memory, zoom, deref, reply_fields,
    mbind, M_bind, bind, ret, panic, modify, alloc_bytes, alloc_template, publish.
  destruct s as [up addr [p|] mem];
    cbn [upstream memory blockTemplate config_Address set_upstream set_memory
         set_arrays set_templates arrays templates Store].
  - destruct (templates mem !! p) as [cur|]; [|reflexivity].
    destruct reply as [rp|]; [|reflexivity].
    destruct (String.eqb (prevHash cur) (Rpc.PrevHash rp)); [|reflexivity].
    destruct ((String.length (Rpc.PrevHash rp) =? 0)%nat && (Rpc.Height rp >? height cur));
      reflexivity.
  - destruct reply as [rp|]; reflexivity.
Qed.

Lemma set_upstream_same s : set_upstream (upstream s) s = s.
Proof. by destruct s. Qed.

(** A call that comes back without an error has not touched the client. *)
Lemma GetBlockTemplate_no_error json daemon reserveSize address r reply r' :
  Rpc.GetBlockTemplate json daemon reserveSize address r = Returned (reply, None) r' ->
  r' = r.
Proof.
  rewrite GetBlockTemplate_outcome.
  destruct (Rpc.doPost _ _ _ _ r) as [[res err] r1|] eqn:Hpost; [|done].
  destruct (doPost_returns _ _ _ _ _ _ _ _ Hpost)
    as [(e & -> & -> & ->)|(resp & -> & -> & -> & _)]; [done|].
  destruct (Rpc.Result resp); [|by intros [= _ <-]].
  destruct (Rpc.unmarshalBlockTemplate json _); by intros [= _ _ <-].
Qed.

(** What a publication leaves in the server. *)
Lemma publish_spec rp s :
  let s' := publish rp s in
  let d := fst (Hex.DecodeString (Rpc.Blob rp)) in
  exists t p,
    blockTemplate s' = Some p
    /\ templates (memory s) !! p = None
    /\ templates (memory s') !! p = Some t
    /\ built_from rp t
    /\ holds (memory s') (buffer t) d
    /\ len (buffer t) = length d
    /\ templates (memory s) ⊆ templates (memory s')
    /\ arrays (memory s) ⊆ arrays (memory s').
Proof.
  intros s' d. unfold s', publish. fold d. eexists _, _. cbn.
  assert (Hq : arrays (memory s) !! fresh (dom (arrays (memory s))) = None)
    by apply not_elem_of_dom, is_fresh.
  assert (Hp : templates (memory s) !! fresh (dom (templates (memory s))) = None)
    by apply not_elem_of_dom, is_fresh.
  split; [reflexivity|]. split; [exact Hp|].
  split; [apply lookup_insert_eq|]. split; [by repeat split|].
  split.
  { unfold holds, contents. cbn. rewrite lookup_insert_eq. cbn.
    rewrite drop_0, firstn_all. by split. }
  split; [reflexivity|].
  split; by apply insert_subseteq.
Qed.

Lemma current_Some s p :
  blockTemplate s = Some p -> current s = templates (memory s) !! p.
Proof. intros H. unfold current. by rewrite H. Qed.

Lemma publish_current rp s :
  exists t, current (publish rp s) = Some t
            /\ built_from rp t
            /\ holds (memory (publish rp s)) (buffer t) (fst (Hex.DecodeString (Rpc.Blob rp))).
Proof.
  destruct (publish_spec rp s) as (t & p & Hb & _ & Ht & Hf & Hh & _).
  exists t. by rewrite (current_Some _ _ Hb), Ht.
Qed.

End RefreshFacts.

Module Refresh.
Import Stratum MemoryFacts TransportFacts RefreshFacts.

(** C1 (as amended).  When [GetBlockTemplate] returns an error, or the reply
    is not new work, or the call panics, the store and the memory are what
    they were.  When [fetchBlockTemplate] publishes, the store points to a
    template object that did not exist before, every field of it is the
    field of the one reply, the objects and arrays that existed are
    untouched, and, for a blob that is valid hexadecimal, its buffer holds
    the decoded bytes; the published template then satisfies
    reservedOffset + 7 <= len(buffer) exactly when the reply's reserved
    offset and decoded blob do, which the code does not check. *)
Theorem publication_is_whole_or_absent :
  forall (json : Rpc.Json) (daemon : Rpc.Daemon) (s : StratumServer),
    (forall s',
        fetchBlockTemplate json daemon s = Returned true s' ->
        exists reply t p,
          Rpc.GetBlockTemplate json daemon 8 (config_Address s) (upstream s)
          = Returned (Some reply, None) (upstream s)
          /\ upstream s' = upstream s
          /\ blockTemplate s' = Some p
          /\ templates (memory s) !! p = None
          /\ templates (memory s') !! p = Some t
          /\ built_from reply t
          /\ templates (memory s) ⊆ templates (memory s')
          /\ arrays (memory s) ⊆ arrays (memory s')
          /\ forall d, Hex.DecodeString (Rpc.Blob reply) = (d, None) ->
               holds (memory s') (buffer t) d
               /\ (reserved_fits t
                   <-> Rpc.ReservedOffset reply + 7 <= Z.of_nat (length d)))
    /\ (forall s',
          fetchBlockTemplate json daemon s = Returned false s' ->
          blockTemplate s' = blockTemplate s /\ memory s' = memory s)
    /\ (forall msg s',
          fetchBlockTemplate json daemon s = Panicked msg s' ->
          blockTemplate s' = blockTemplate s /\ memory s' = memory s)
    /\ (forall reply e r',
          Rpc.GetBlockTemplate json daemon 8 (config_Address s) (upstream s)
          = Returned (reply, Some e) r' ->
          fetchBlockTemplate json daemon s = Returned false (set_upstream r' s)).
Proof.
  intros json daemon s. rewrite fetchBlockTemplate_outcome.
  destruct (Rpc.GetBlockTemplate json daemon 8 (config_Address s) (upstream s))
    as [[reply [e|]] r'|msg r'] eqn:HG.
  - split; [done|]. split; [by intros s' [= <-]|]. split; [done|].
    by intros ? ? ? [= _ <- <-].
  - pose proof (GetBlockTemplate_no_error _ _ _ _ _ _ _ HG) as ->.
    rewrite set_upstream_same. cbn zeta.
    assert (Hpub : forall rp s',
               Returned true (publish rp s) = Returned true s' -> reply = Some rp ->
               exists reply0 t p,
                 Returned (reply, None) (upstream s)
                 = Returned (Some reply0, None : option error) (upstream s)
                 /\ upstream s' = upstream s
                 /\ blockTemplate s' = Some p
                 /\ templates (memory s) !! p = None
                 /\ templates (memory s') !! p = Some t
                 /\ built_from reply0 t
                 /\ templates (memory s) ⊆ templates (memory s')
                 /\ arrays (memory s) ⊆ arrays (memory s')
                 /\ forall d, Hex.DecodeString (Rpc.Blob reply0) = (d, None) ->
                      holds (memory s') (buffer t) d
                      /\ (reserved_fits t
                          <-> Rpc.ReservedOffset reply0 + 7 <= Z.of_nat (length d))).
    { intros rp s' [= <-] ->.
      destruct (publish_spec rp s) as (t & p & Hb & Hnew & Ht & Hf & Hh & Hlen & HT & HA).
      exists rp, t, p.
      split; [done|]. split; [done|]. split; [done|]. split; [done|].
      split; [done|]. split; [done|]. split; [done|]. split; [done|].
      intros d Hd. rewrite Hd in Hh. cbn [fst] in Hh. split; [exact Hh|].
      unfold reserved_fits. rewrite Hlen, Hd. cbn [fst].
      destruct Hf as (_ & _ & _ & _ & -> & _). reflexivity. }
    assert (Hsame : forall (b : bool) (s' : StratumServer),
               Returned b s = Returned false s' ->
               blockTemplate s' = blockTemplate s /\ memory s' = memory s)
      by (by intros ? ? [= _ <-]).
    assert (Hpanic : forall (m0 msg : string) (s' : StratumServer),
               @Panicked StratumServer bool m0 s = Panicked msg s' ->
               blockTemplate s' = blockTemplate s /\ memory s' = memory s)
      by (by intros ? ? ? [= _ <-]).
    split; [|split; [|split; [|done]]].
    + intros s'. destruct (blockTemplate s) as [p|].
      * destruct (templates (memory s) !! p) as [cur|]; [|done].
        destruct reply as [rp|]; [|done].
        destruct (String.eqb (prevHash cur) (Rpc.PrevHash rp));
          [destruct (_ && _); [|done]|]; intros Hs'; by apply (Hpub rp).
      * destruct reply as [rp|]; [|done]. intros Hs'. by apply (Hpub rp).
    + intros s'. destruct (blockTemplate s) as [p|] eqn:Hst.
      * destruct (templates (memory s) !! p) as [cur|]; [|done].
        destruct reply as [rp|]; [|done].
        destruct (String.eqb (prevHash cur) (Rpc.PrevHash rp));
          [destruct (_ && _); [done|]|done].
        intros [= <-]. by rewrite Hst.
      * destruct reply as [rp|]; done.
    + intros msg s'. destruct (blockTemplate s) as [p|] eqn:Hst.
      * destruct (templates (memory s) !! p) as [cur|];
          [|intros [= _ <-]; by rewrite Hst].
        destruct reply as [rp|]; [|intros [= _ <-]; by rewrite Hst].
        destruct (String.eqb (prevHash cur) (Rpc.PrevHash rp));
          [destruct (_ && _); done|done].
      * destruct reply as [rp|]; [done|]. intros [= _ <-]. by rewrite Hst.
  - split; [done|]. split; [done|]. split; [|done].
    by intros ? ? [= _ <-].
Qed.

Lemma publication_is_whole_or_absent_witness :
  fetchBlockTemplate (Rpc.Json_at "{}" (Some Rpc.zero_reply, None))
    (fun _ => Rpc.DoFailed "connection refused") new_server
  = Returned false (set_upstream (Rpc.markSick_pure Rpc.local_client) new_server).
Proof.
  apply (proj2 (proj2 (proj2 (publication_is_whole_or_absent
           (Rpc.Json_at "{}" (Some Rpc.zero_reply, None))
           (fun _ => Rpc.DoFailed "connection refused") new_server)))
           None "connection refused").
  reflexivity.
Defined.

(** C1 as stated fails: the daemon's answer {"id":0,"result":{}} decodes to
    the zero reply, whose blob (the empty string) is valid hexadecimal;
    [fetchBlockTemplate] publishes a template with reserved offset 0 and an
    empty buffer, for which reservedOffset + 7 <= len(buffer) is false. *)
Lemma published_template_can_break_the_reserved_bound :
  exists (s' : StratumServer) (t : BlockTemplate),
    fetchBlockTemplate (Rpc.Json_at "{}" (Some Rpc.zero_reply, None))
      (Rpc.answers (Rpc.result_envelope "{}")) new_server
    = Returned true s'
    /\ Hex.DecodeString (Rpc.Blob Rpc.zero_reply) = ([], None)
    /\ current s' = Some t
    /\ ~ reserved_fits t.
Proof.
  eexists _, _. split; [vm_compute; reflexivity|]. split; [reflexivity|].
  split; [vm_compute; reflexivity|].
  unfold reserved_fits. cbn. lia.
Qed.

(** The error of [hex.DecodeString] is not looked at: a blob that stops being
    hexadecimal after one byte is published with that one byte as buffer. *)
Lemma blob_that_is_not_hex_is_published :
  exists (s' : StratumServer) (t : BlockTemplate),
    fetchBlockTemplate
      (Rpc.Json_at (Rpc.blob_payload "0azz") (Some (Rpc.blob_reply "0azz"), None))
      (Rpc.answers (Rpc.result_envelope (Rpc.blob_payload "0azz"))) new_server
    = Returned true s'
    /\ Hex.DecodeString "0azz" = ([x0a], Some (Hex.InvalidByteError "z"))
    /\ current s' = Some t
    /\ contents (memory s') (buffer t) = Some [x0a].
Proof.
  eexists _, _. split; [vm_compute; reflexivity|]. split; [reflexivity|].
  split; vm_compute; reflexivity.
Qed.

(** C5.  For a reply that came back without an error: with no template
    stored it is published; with a stored template whose previous-block hash
    differs from the reply's it is published; with the same hash it is
    published when that hash is empty and the reply's height is greater than
    the stored one, and otherwise [fetchBlockTemplate] returns false and
    leaves the server as it was. *)
Theorem novelty_policy :
  forall (json : Rpc.Json) (daemon : Rpc.Daemon) (s : StratumServer)
         (reply : Rpc.GetBlockTemplateReply) (r' : Rpc.RPCClient),
    Rpc.GetBlockTemplate json daemon 8 (config_Address s) (upstream s)
    = Returned (Some reply, None) r' ->
    store_ok s ->
    (current s = None -> publishes json daemon s reply)
    /\ (forall cur, current s = Some cur ->
          prevHash cur <> Rpc.PrevHash reply ->
          publishes json daemon s reply)
    /\ (forall cur, current s = Some cur ->
          prevHash cur = Rpc.PrevHash reply ->
          Rpc.PrevHash reply = "" -> height cur < Rpc.Height reply ->
          publishes json daemon s reply)
    /\ (forall cur, current s = Some cur ->
          prevHash cur = Rpc.PrevHash reply ->
          Rpc.PrevHash reply <> "" \/ Rpc.Height reply <= height cur ->
          declines json daemon s).
Proof.
  intros json daemon s reply r' HG Hok.
  pose proof (GetBlockTemplate_no_error _ _ _ _ _ _ _ HG) as ->.
  assert (Hpub : fetchBlockTemplate json daemon s = Returned true (publish reply s) ->
                 publishes json daemon s reply).
  { intros Hf. destruct (publish_current reply s) as (t & Hc & Hb & Hh).
    by exists (publish reply s), t. }
  unfold declines. rewrite fetchBlockTemplate_outcome, HG, set_upstream_same in *.
  cbn zeta in *.
  assert (Hlen : forall ph : string, (String.length ph =? 0)%nat = true <-> ph = "").
  { intros [|c ph]; cbn; split; (done || discriminate). }
  destruct (blockTemplate s) as [p|] eqn:Hst.
  - assert (Hcur : current s = templates (memory s) !! p) by by apply current_Some.
    destruct Hok as [Hnone|[cur0 Hsome]]; [congruence|].
    rewrite Hcur in *. rewrite Hsome in *.
    split; [done|].
    destruct (String.eqb_spec (prevHash cur0) (Rpc.PrevHash reply)) as [Heq|Hne].
    + split; [by intros cur [= <-]|].
      split.
      * intros cur [= <-] _ He Hh. apply Hpub.
        rewrite (proj2 (Hlen _) He).
        by destruct (Z.gtb_spec (Rpc.Height reply) (height cur0)); [|lia].
      * intros cur [= <-] _ Hor.
        destruct (Nat.eqb_spec (String.length (Rpc.PrevHash reply)) 0) as [H0|H0];
          [|done].
        destruct (Z.gtb_spec (Rpc.Height reply) (height cur0)) as [Hgt|Hle];
          [|done].
        destruct Hor as [Hor|Hor]; [|lia].
        apply Nat.eqb_eq, Hlen in H0. done.
    + split; [by intros cur [= <-] _; apply Hpub|].
      split; by intros cur [= <-].
  - assert (Hcur : current s = None) by (unfold current; by rewrite Hst).
    rewrite Hcur. split; [by intros _; apply Hpub|].
    repeat split; by intros.
Qed.

Lemma novelty_policy_witness :
  publishes (Rpc.Json_at "{}" (Some Rpc.zero_reply, None))
    (Rpc.answers (Rpc.result_envelope "{}")) new_server Rpc.zero_reply
  /\ publishes (Rpc.Json_at "{}" (Some Rpc.zero_reply, None))
       (Rpc.answers (Rpc.result_envelope "{}")) (sample_server 1%positive) Rpc.zero_reply
  /\ declines (Rpc.Json_at "{}" (Some Rpc.zero_reply, None))
       (Rpc.answers (Rpc.result_envelope "{}")) (sample_server 3%positive).
Proof.
  split; [|split].
  - apply (proj1 (novelty_policy (Rpc.Json_at "{}" (Some Rpc.zero_reply, None))
             (Rpc.answers (Rpc.result_envelope "{}")) new_server Rpc.zero_reply
             Rpc.local_client eq_refl (or_introl eq_refl))).
    reflexivity.
  - apply (proj1 (proj2 (novelty_policy (Rpc.Json_at "{}" (Some Rpc.zero_reply, None))
             (Rpc.answers (Rpc.result_envelope "{}")) (sample_server 1%positive)
             Rpc.zero_reply Rpc.local_client eq_refl
             (or_intror (ex_intro _ (sample_template 2 "abc") eq_refl))))
             (sample_template 2 "abc")).
    + reflexivity.
    + discriminate.
  - apply (proj2 (proj2 (proj2 (novelty_policy (Rpc.Json_at "{}" (Some Rpc.zero_reply, None))
             (Rpc.answers (Rpc.result_envelope "{}")) (sample_server 3%positive)
             Rpc.zero_reply Rpc.local_client eq_refl
             (or_intror (ex_intro _ (sample_template 2 "") eq_refl)))))
             (sample_template 2 "")).
    + reflexivity.
    + reflexivity.
    + right. cbn. lia.
Defined.

(** C10.  When the envelope carries neither a result nor an error object,
    [GetBlockTemplate] returns a nil reply with a nil error and leaves the
    client untouched, and [fetchBlockTemplate] then panics on the nil reply
    (on line 45 when a template is stored, in the arguments of line 53 when
    none is) without having changed the server. *)
Theorem bare_envelope_gives_nil_reply_and_refresh_panics :
  forall (json : Rpc.Json) (daemon : Rpc.Daemon) (s : StratumServer)
         (resp : Rpc.JSONRpcResp),
    daemon (Rpc.newRequest (upstream s) (Rpc.Url (upstream s)) "getblocktemplate"
              (Rpc.blockTemplateParams 8 (config_Address s)))
    = Rpc.Responded (Some resp) None ->
    Rpc.Error resp = None ->
    Rpc.Result resp = None ->
    Rpc.GetBlockTemplate json daemon 8 (config_Address s) (upstream s)
    = Returned (None, None) (upstream s)
    /\ fetchBlockTemplate json daemon s
       = Panicked "invalid memory address or nil pointer dereference" s.
Proof.
  intros json daemon s resp Hd He Hr.
  assert (HG : Rpc.GetBlockTemplate json daemon 8 (config_Address s) (upstream s)
               = Returned (None, None) (upstream s)).
  { rewrite GetBlockTemplate_outcome, doPost_outcome, Hd, He, Hr. reflexivity. }
  split; [exact HG|].
  rewrite fetchBlockTemplate_outcome, HG, set_upstream_same. cbn zeta.
  destruct (blockTemplate s) as [p|]; [|reflexivity].
  destruct (templates (memory s) !! p); reflexivity.
Qed.

Lemma bare_envelope_gives_nil_reply_and_refresh_panics_witness :
  Rpc.GetBlockTemplate (Rpc.Json_at "{}" (Some Rpc.zero_reply, None))
    (Rpc.answers Rpc.empty_envelope) 8 "wallet" Rpc.local_client
  = Returned (None, None) Rpc.local_client
  /\ fetchBlockTemplate (Rpc.Json_at "{}" (Some Rpc.zero_reply, None))
       (Rpc.answers Rpc.empty_envelope) (sample_server 1%positive)
     = Panicked "invalid memory address or nil pointer dereference"
                (sample_server 1%positive).
Proof.
  apply (bare_envelope_gives_nil_reply_and_refresh_panics
           (Rpc.Json_at "{}" (Some Rpc.zero_reply, None))
           (Rpc.answers Rpc.empty_envelope) (sample_server 1%positive)
           Rpc.empty_envelope); reflexivity.
Defined.

End Refresh.

(** * Further properties *)

(** ** Health monitor over histories *)

Module HealthHistory.
Import Rpc HealthFacts.

Lemma failures_app evs evs' : failures (evs ++ evs') = (failures evs + failures evs')%nat.
Proof. induction evs as [|[] evs IH]; simpl; lia. Qed.

(** X5.  In every history of a client that starts not sick with both streaks
    at 0, and that is shorter than 2^63 reports, the success streak stays
    within 0..4, the failure streak within 0..length of the history, and the
    flag is redundant with the counter: the endpoint is sick exactly when the
    failure streak is at least 5. *)
Theorem sick_exactly_when_failure_streak_reaches_five :
  forall (r0 : RPCClient) (evs : list report),
    sick r0 = false -> sickRate r0 = 0 -> successRate r0 = 0 ->
    Z.of_nat (length evs) < 2 ^ 63 ->
    0 <= successRate (run evs r0) <= 4
    /\ 0 <= sickRate (run evs r0) <= Z.of_nat (length evs)
    /\ (sick (run evs r0) = true <-> 5 <= sickRate (run evs r0)).
Proof.
  intros r0 evs Hs Hf Hu. induction evs as [|e evs IH] using rev_ind; intros Hlen.
  - simpl. rewrite Hs, Hf, Hu. repeat split; try lia; discriminate.
  - rewrite length_app in Hlen. simpl in Hlen.
    destruct IH as (Hsu & Hsr & Hiff); [lia|].
    rewrite run_snoc, length_app. simpl length.
    set (r := run evs r0) in *. destruct e; cbn [apply_report].
    + assert (Hw : wrap64 (sickRate r + 1) = sickRate r + 1)
        by (apply wrap64_small; unfold int64_range; lia).
      unfold markSick_pure. cbn. rewrite Hw.
      split; [lia|]. split; [lia|].
      destruct (Z.leb_spec 5 (sickRate r + 1)); [by split|].
      split; [intros Hsk; apply Hiff in Hsk; lia | lia].
    + assert (Hw : wrap64 (successRate r + 1) = successRate r + 1)
        by (apply wrap64_small; unfold int64_range; lia).
      destruct (Z.lt_ge_cases (successRate r + 1) 5).
      * rewrite markAlive_below by lia. cbn. rewrite Hw.
        split; [lia|]. split; [lia|]. exact Hiff.
      * rewrite markAlive_full by lia. cbn.
        split; [lia|]. split; [lia|]. split; [discriminate | lia].
Qed.

Lemma sick_exactly_when_failure_streak_reaches_five_witness :
  0 <= successRate (run [Failure; Success; Failure; Failure; Failure; Failure] local_client) <= 4
  /\ 0 <= sickRate (run [Failure; Success; Failure; Failure; Failure; Failure] local_client)
     <= Z.of_nat (length [Failure; Success; Failure; Failure; Failure; Failure])
  /\ (sick (run [Failure; Success; Failure; Failure; Failure; Failure] local_client) = true
      <-> 5 <= sickRate (run [Failure; Success; Failure; Failure; Failure; Failure]
                          local_client)).
Proof.
  apply (sick_exactly_when_failure_streak_reaches_five local_client
           [Failure; Success; Failure; Failure; Failure; Failure]);
    vm_compute; reflexivity.
Defined.

(** X6.  Failures accumulate across interruptions: in a history (shorter than
    2^63 reports, from a client that starts not sick with both streaks at 0)
    that nowhere contains five success reports in a row, the failure streak
    is the total number of failure reports, however they are interleaved with
    successes, and the endpoint is sick exactly when there were at least five
    of them. *)
Theorem failures_accumulate_until_five_successes_in_a_row :
  forall (r0 : RPCClient) (evs : list report),
    sick r0 = false -> sickRate r0 = 0 -> successRate r0 = 0 ->
    Z.of_nat (length evs) < 2 ^ 63 ->
    (forall pre post, evs <> pre ++ replicate 5 Success ++ post) ->
    sickRate (run evs r0) = Z.of_nat (failures evs)
    /\ (sick (run evs r0) = true <-> (5 <= failures evs)%nat).
Proof.
  intros r0 evs Hs Hf Hu.
  induction evs as [|e evs IH] using rev_ind; intros Hlen Hrun.
  - simpl. rewrite Hs, Hf. split; [done|]. split; [discriminate | lia].
  - rewrite length_app in Hlen. simpl in Hlen.
    destruct IH as (Hsr & Hiff); [lia| |].
    { intros pre post Heq. apply (Hrun pre (post ++ [e])).
      rewrite Heq. by rewrite <- !app_assoc. }
    assert (Hfl : (failures evs <= length evs)%nat).
    { clear. induction evs as [|[] evs IH]; simpl; lia. }
    destruct (successRate_counts_suffix r0 evs Hu) as [Hsu [pre Hpre]].
    rewrite run_snoc, failures_app.
    set (r := run evs r0) in *. destruct e; cbn [apply_report failures].
    + assert (Hw : wrap64 (sickRate r + 1) = sickRate r + 1)
        by (apply wrap64_small; unfold int64_range; lia).
      unfold markSick_pure. cbn. rewrite Hw. split; [lia|].
      destruct (Z.leb_spec 5 (sickRate r + 1)); [split; [lia|done]|].
      split; [intros Hsk; apply Hiff in Hsk; lia | lia].
    + assert (Hw : wrap64 (successRate r + 1) = successRate r + 1)
        by (apply wrap64_small; unfold int64_range; lia).
      destruct (Z.lt_ge_cases (successRate r + 1) 5).
      * rewrite markAlive_below by lia. cbn.
        split; [lia|]. rewrite Hiff. lia.
      * exfalso. apply (Hrun pre []).
        assert (H4 : Z.to_nat (successRate r) = 4%nat) by lia.
        rewrite Hpre at 1. rewrite H4, app_nil_r, (replicate_S_end 4).
        by rewrite app_assoc.
Qed.

Lemma failures_accumulate_until_five_successes_in_a_row_witness :
  sickRate (run [Failure; Success; Success; Failure; Success; Failure; Failure;
                 Success; Success; Success; Success; Failure] local_client)
  = Z.of_nat (failures [Failure; Success; Success; Failure; Success; Failure; Failure;
                        Success; Success; Success; Success; Failure])
  /\ (sick (run [Failure; Success; Success; Failure; Success; Failure; Failure;
                 Success; Success; Success; Success; Failure] local_client) = true
      <-> (5 <= failures [Failure; Success; Success; Failure; Success; Failure; Failure;
                          Success; Success; Success; Success; Failure])%nat).
Proof.
  apply (failures_accumulate_until_five_successes_in_a_row local_client
           [Failure; Success; Success; Failure; Success; Failure; Failure;
            Success; Success; Success; Success; Failure]);
    try (vm_compute; reflexivity).
  intros pre post Heq.
  assert (Hin : forall i, (i < 5)%nat ->
            [Failure; Success; Success; Failure; Success; Failure; Failure;
             Success; Success; Success; Success; Failure] !! (length pre + i)%nat
            = Some Success).
  { intros i Hi. rewrite Heq, lookup_app_r by lia.
    replace (length pre + i - length pre)%nat with i by lia.
    rewrite lookup_app_l by (rewrite length_replicate; lia).
    by apply lookup_replicate_2. }
  pose proof (Hin 0%nat) as H0. pose proof (Hin 1%nat) as H1.
  pose proof (Hin 2%nat) as H2. pose proof (Hin 3%nat) as H3.
  pose proof (Hin 4%nat) as H4.
  assert (Hl : (length pre + 5 <= 12)%nat).
  { apply (f_equal length) in Heq. rewrite !length_app, length_replicate in Heq.
    simpl in Heq. lia. }
  destruct (length pre) as [|[|[|[|[|[|[|[|n]]]]]]]]; simpl in *;
    try (specialize (H0 ltac:(lia)); discriminate);
    try (specialize (H1 ltac:(lia)); discriminate);
    try (specialize (H2 ltac:(lia)); discriminate);
    try (specialize (H3 ltac:(lia)); discriminate);
    try (specialize (H4 ltac:(lia)); discriminate); lia.
Defined.

End HealthHistory.

(** ** The transport and the health monitor together *)

Module TransportHealthFacts.
Import Rpc HealthFacts TransportFacts.

Lemma Check_outcome json daemon reserveSize address r :
  Check json daemon reserveSize address r
  = match GetBlockTemplate json daemon reserveSize address r with
    | Returned (_, Some e) r' => Returned (false, Some e) r'
    | Returned (_, None) r' =>
        Returned (negb (sick (markAlive_pure r')), None) (markAlive_pure r')
    | Panicked msg r' => Panicked msg r'
    end.
Proof.
  unfold Check. go_unfold.
  by destruct (GetBlockTemplate json daemon reserveSize address r)
    as [[reply [e|]] r'|msg r'].
Qed.

Lemma GetBlockTemplate_unreachable json d reserveSize address r :
  unreachable d ->
  exists e, GetBlockTemplate json d reserveSize address r
            = Returned (None, Some e) (markSick_pure r).
Proof.
  intros [e He]. exists e.
  by rewrite GetBlockTemplate_outcome, doPost_outcome, He.
Qed.

Lemma GetBlockTemplate_answers_well json d reserveSize address r :
  answers_well json d ->
  exists reply, GetBlockTemplate json d reserveSize address r
                = Returned (reply, None) r.
Proof.
  intros (resp & Hd & He & Hr).
  rewrite GetBlockTemplate_outcome, doPost_outcome, Hd, He.
  destruct (Result resp) as [raw|]; [|by exists None].
  specialize (Hr raw eq_refl).
  destruct (unmarshalBlockTemplate json raw) as [reply err]. simpl in Hr. subst err.
  by exists reply.
Qed.

Lemma run_cons e evs r : run (e :: evs) r = run evs (apply_report r e).
Proof. reflexivity. Qed.

Lemma markSick_keeps_sick n r :
  sick r = true -> sick (run (replicate n Failure) r) = true.
Proof.
  revert r. induction n as [|n IH]; intros r Hs; [exact Hs|].
  cbn [replicate]. rewrite run_cons. apply IH.
  cbn. rewrite Hs. by destruct (5 <=? _).
Qed.

Lemma sickRate_after_failures n r :
  0 <= sickRate r -> sickRate r + Z.of_nat n < 2 ^ 63 ->
  sickRate (run (replicate n Failure) r) = sickRate r + Z.of_nat n.
Proof.
  revert r. induction n as [|n IH]; intros r H0 Hn; [simpl; lia|].
  cbn [replicate]. rewrite run_cons.
  assert (Hw : wrap64 (sickRate r + 1) = sickRate r + 1)
    by (apply wrap64_small; unfold int64_range; lia).
  rewrite IH; cbn; rewrite Hw; lia.
Qed.

Lemma sick_after_five_or_more_failures n r :
  0 <= sickRate r < 2 ^ 62 -> (5 <= n)%nat ->
  sick (run (replicate n Failure) r) = true.
Proof.
  intros Hr Hn.
  replace n with (4 + 1 + (n - 5))%nat by lia.
  rewrite !replicate_add, !run_app. apply markSick_keeps_sick.
  set (r4 := run (replicate 4 Failure) r).
  assert (H4 : sickRate r4 = sickRate r + 4)
    by (apply (sickRate_after_failures 4); lia).
  change (sick (markSick_pure r4) = true).
  unfold markSick_pure. cbn [sick set_health]. rewrite H4.
  assert (Hw : wrap64 (sickRate r + 4 + 1) = sickRate r + 5)
    by (rewrite wrap64_small; unfold int64_range; lia).
  rewrite Hw. by destruct (Z.leb_spec 5 (sickRate r + 5)); [|lia].
Qed.

End TransportHealthFacts.

Module TransportHealth.
Import Rpc HealthFacts TransportFacts TransportHealthFacts.

(** X1.  Whenever [doPost] returns, it hands back exactly one of a response
    and an error: an error comes with a nil response and one failure report
    on the client; a response comes with a nil error, is the envelope the
    daemon sent, has no error object, and the client is untouched. *)
Theorem doPost_returns_a_response_or_an_error :
  forall (daemon : Daemon) (url method : string) (params : iface)
         (r r' : RPCClient) (res : option JSONRpcResp) (err : option error),
    doPost daemon url method params r = Returned (res, err) r' ->
    (exists e, err = Some e /\ res = None /\ r' = markSick_pure r)
    \/ (exists resp, res = Some resp /\ err = None /\ r' = r /\ Error resp = None
        /\ daemon (newRequest r url method params) = Responded (Some resp) None).
Proof. intros. by eapply doPost_returns. Qed.

Lemma doPost_returns_a_response_or_an_error_witness :
  (exists e, Some "connection refused" = Some e /\ (None : option JSONRpcResp) = None
             /\ markSick_pure local_client = markSick_pure local_client)
  \/ (exists resp, None = Some resp /\ Some "connection refused" = (None : option error)
      /\ markSick_pure local_client = local_client /\ Error resp = None
      /\ down (newRequest local_client "http://127.0.0.1:18081/json_rpc" "submitblock"
                 (ISlice [IString "00"]))
         = Responded (Some resp) None).
Proof.
  apply (doPost_returns_a_response_or_an_error down
           "http://127.0.0.1:18081/json_rpc" "submitblock" (ISlice [IString "00"])
           local_client).
  reflexivity.
Defined.

(** X2.  When the daemon cannot be reached, every [Check] returns false with
    the error and counts as one failure report; after five or more such
    calls, on a client whose failure streak started anywhere in 0..2^62,
    the endpoint is sick. *)
Theorem unreachable_daemon_makes_the_endpoint_sick :
  forall (json : Json) (ds : list Daemon) (reserveSize : Z) (address : string)
         (r : RPCClient),
    Forall unreachable ds ->
    exists results,
      probe json ds reserveSize address r
      = Returned results (run (replicate (length ds) Failure) r)
      /\ length results = length ds
      /\ Forall (fun res => fst res = false /\ is_Some (snd res)) results
      /\ (0 <= sickRate r < 2 ^ 62 -> (5 <= length ds)%nat ->
          sick (run (replicate (length ds) Failure) r) = true).
Proof.
  intros json ds k a r Hds.
  assert (H : exists results,
             probe json ds k a r
             = Returned results (run (replicate (length ds) Failure) r)
             /\ length results = length ds
             /\ Forall (fun res => fst res = false /\ is_Some (snd res)) results).
  { revert r. induction Hds as [|d ds Hd Hds IH]; intros r.
    - exists []. by repeat split.
    - destruct (GetBlockTemplate_unreachable json d k a r Hd) as [e He].
      destruct (IH (markSick_pure r)) as (results & Hrun & Hlen & Hall).
      exists ((false, Some e) :: results).
      cbn [probe length replicate]. rewrite run_cons. cbn [apply_report].
      unfold mbind at 1, M_bind, bind. rewrite Check_outcome, He.
      unfold mbind, M_bind, bind. rewrite Hrun.
      split; [reflexivity|]. split; [simpl; lia|].
      constructor; [by split; [|eexists]|exact Hall]. }
  destruct H as (results & Hrun & Hlen & Hall).
  exists results. repeat split; try done.
  intros Hr Hn. by apply sick_after_five_or_more_failures.
Qed.

Lemma unreachable_daemon_makes_the_endpoint_sick_witness :
  exists results,
    probe lenient [down; down; down; down; down] 8 "wallet" local_client
    = Returned results (run (replicate (length [down; down; down; down; down]) Failure)
                            local_client)
    /\ length results = length [down; down; down; down; down]
    /\ Forall (fun res => fst res = false /\ is_Some (snd res)) results
    /\ (0 <= sickRate local_client < 2 ^ 62 ->
        (5 <= length [down; down; down; down; down])%nat ->
        sick (run (replicate (length [down; down; down; down; down]) Failure)
                  local_client) = true).
Proof.
  apply (unreachable_daemon_makes_the_endpoint_sick lenient
           [down; down; down; down; down] 8 "wallet" local_client).
  repeat constructor; by exists "connection refused".
Defined.

(** X3.  When the daemon answers well (an envelope without error object, with
    a result the decoder accepts or with no result at all), every [Check]
    counts as one success report and returns the negation of the sick flag
    it leaves; so on a sick endpoint whose success streak is 0, four checks
    return false and the fifth returns true. *)
Theorem checks_report_health_after_counting_the_success :
  forall (json : Json) (ds : list Daemon) (reserveSize : Z) (address : string)
         (r : RPCClient),
    Forall (answers_well json) ds ->
    probe json ds reserveSize address r
    = Returned
        (map (fun i => (negb (sick (run (replicate (S i) Success) r)), None))
             (seq 0 (length ds)))
        (run (replicate (length ds) Success) r)
    /\ (sick r = true -> successRate r = 0 -> length ds = 5%nat ->
        map (fun i => (negb (sick (run (replicate (S i) Success) r)), None : option error))
            (seq 0 (length ds))
        = [(false, None); (false, None); (false, None); (false, None); (true, None)]).
Proof.
  intros json ds k a r Hds. split.
  - revert r. induction Hds as [|d ds Hd Hds IH]; intros r; [reflexivity|].
    destruct (GetBlockTemplate_answers_well json d k a r Hd) as [reply Hg].
    cbn [probe length replicate seq map]. rewrite run_cons. cbn [apply_report].
    unfold mbind at 1, M_bind, bind. rewrite Check_outcome, Hg.
    unfold mbind, M_bind, bind. rewrite IH. cbn [ret].
    f_equal. f_equal. rewrite <- seq_shift, map_map. reflexivity.
  - intros Hs Hu ->.
    destruct r as [sr su ? ? ? ? ? ? ? ? sk ?].
    cbn [sick successRate] in Hs, Hu. subst. vm_compute. reflexivity.
Qed.

Lemma checks_report_health_after_counting_the_success_witness :
  probe lenient
    [answers empty_envelope; answers (result_envelope "{}"); answers empty_envelope;
     answers (result_envelope "{}"); answers (result_envelope "{}")]
    8 "wallet" (run (replicate 5 Failure) local_client)
  = Returned
      (map (fun i => (negb (sick (run (replicate (S i) Success)
                                    (run (replicate 5 Failure) local_client))), None))
           (seq 0 (length [answers empty_envelope; answers (result_envelope "{}");
                           answers empty_envelope; answers (result_envelope "{}");
                           answers (result_envelope "{}")])))
      (run (replicate (length [answers empty_envelope; answers (result_envelope "{}");
                               answers empty_envelope; answers (result_envelope "{}");
                               answers (result_envelope "{}")]) Success)
           (run (replicate 5 Failure) local_client)).
Proof.
  apply (proj1 (checks_report_health_after_counting_the_success lenient
           [answers empty_envelope; answers (result_envelope "{}"); answers empty_envelope;
            answers (result_envelope "{}"); answers (result_envelope "{}")]
           8 "wallet" (run (replicate 5 Failure) local_client)
           ltac:(repeat constructor;
                 (by exists empty_envelope) || (by exists (result_envelope "{}"))))).
Defined.

(** X4.  The info cache: when [UpdateInfo] comes back without an error, the
    reply it returns is what [Info] yields afterwards and nothing else of the
    client has changed; when it comes back with an error the cached info is
    the one from before, and the client has taken at most one failure
    report. *)
Theorem UpdateInfo_caches_only_successful_replies :
  forall (json : Json) (daemon : Daemon) (r r' : RPCClient)
         (i : option GetInfoReply) (err : option error),
    UpdateInfo json daemon r = Returned (i, err) r' ->
    (err = None -> r' = set_info i r /\ Info r' = Returned i r')
    /\ (err <> None ->
        info r' = info r /\ (r' = r \/ r' = markSick_pure r)).
Proof.
  intros json daemon r r' i err. unfold UpdateInfo. go_unfold.
  rewrite GetInfo_outcome.
  destruct (doPost daemon (Url r) "get_info" (IMap ∅) r)
    as [[res e] r1|msg r1] eqn:Hpost; [|done].
  destruct (doPost_returns _ _ _ _ _ _ _ _ Hpost)
    as [(e0 & -> & -> & ->)|(resp & -> & -> & -> & _)].
  - intros [= <- <- <-]. split; [done|]. intros _. split; [reflexivity|by right].
  - destruct (Result resp) as [raw|].
    + destruct (unmarshalInfo json raw) as [i0 [e0|]]; cbn.
      * intros [= <- <- <-]. split; [done|]. intros _. split; [reflexivity|by left].
      * intros [= <- <- <-]. split; [|done]. intros _. by split.
    + cbn. intros [= <- <- <-]. split; [|done]. intros _. by split.
Qed.

Lemma UpdateInfo_caches_only_successful_replies_witness :
  (Some "connection refused" = (None : option error) ->
   markSick_pure local_client = set_info None local_client
   /\ Info (markSick_pure local_client) = Returned None (markSick_pure local_client))
  /\ (Some "connection refused" <> (None : option error) ->
      info (markSick_pure local_client) = info local_client
      /\ (markSick_pure local_client = local_client
          \/ markSick_pure local_client = markSick_pure local_client)).
Proof.
  apply (UpdateInfo_caches_only_successful_replies lenient down local_client).
  reflexivity.
Defined.

End TransportHealth.

(** ** Hexadecimal coding *)

Module HexFacts.

Lemma hex_byte_round_trip (v : byte) :
  Hex.fromHexChar (Hex.hexdigit (Byte.to_N v / 16)) = Some (Byte.to_N v / 16)%N
  /\ Hex.fromHexChar (Hex.hexdigit (Byte.to_N v mod 16)) = Some (Byte.to_N v mod 16)%N
  /\ Hex.byte_of_N ((Byte.to_N v / 16) * 16 + Byte.to_N v mod 16) = v.
Proof. destruct v; vm_compute; repeat split. Qed.

Lemma Decode_Encode (bs : list byte) : Hex.Decode (Hex.Encode bs) = (bs, None).
Proof.
  induction bs as [|v bs IH]; [reflexivity|].
  change (Hex.Encode (v :: bs))
    with (Hex.hexdigit (Byte.to_N v / 16) :: Hex.hexdigit (Byte.to_N v mod 16)
            :: Hex.Encode bs).
  cbn [Hex.Decode].
  destruct (hex_byte_round_trip v) as (-> & -> & Hv).
  by rewrite IH, Hv.
Qed.

Lemma length_Encode (bs : list byte) : length (Hex.Encode bs) = (2 * length bs)%nat.
Proof.
  induction bs as [|v bs IH]; [reflexivity|].
  change (Hex.Encode (v :: bs))
    with (Hex.hexdigit (Byte.to_N v / 16) :: Hex.hexdigit (Byte.to_N v mod 16)
            :: Hex.Encode bs).
  cbn [length]. lia.
Qed.

Lemma length_string_of_list_byte (l : list byte) :
  String.length (string_of_list_byte l) = length l.
Proof.
  unfold string_of_list_byte. induction l as [|c l IH]; simpl; congruence.
Qed.

Lemma length_list_byte_of_string (s : string) :
  length (list_byte_of_string s) = String.length s.
Proof.
  unfold list_byte_of_string. induction s as [|c s IH]; simpl; congruence.
Qed.

Lemma DecodeString_EncodeToString (bs : list byte) :
  Hex.DecodeString (Hex.EncodeToString bs) = (bs, None).
Proof.
  unfold Hex.DecodeString, Hex.EncodeToString.
  by rewrite list_byte_of_string_of_list_byte, Decode_Encode.
Qed.

(** Induction over a list two elements at a time, as [hex.Decode] consumes
    it. *)
Lemma pair_induction {A} (P : list A -> Prop) :
  P [] -> (forall x, P [x]) -> (forall x y l, P l -> P (x :: y :: l)) ->
  forall l, P l.
Proof.
  intros H0 H1 H2 l.
  assert (H : P l /\ forall x, P (x :: l)); [|apply H].
  induction l as [|y l [IHl IHxl]]; [by split|].
  split; [apply IHxl|]. intros x. by apply H2.
Qed.

(** The decoder never yields more than one byte per two characters, and it
    yields exactly that many when, and only when, it reports no error. *)
Lemma Decode_length (src : list byte) :
  (2 * length (fst (Hex.Decode src)) <= length src)%nat
  /\ (snd (Hex.Decode src) = None
      <-> (2 * length (fst (Hex.Decode src)))%nat = length src).
Proof.
  induction src as [| p | p q rest [IHle IHiff]] using pair_induction.
  - by split.
  - cbn. destruct (Hex.fromHexChar p); cbn; split; try lia; split; (done || lia).
  - cbn [Hex.Decode].
    destruct (Hex.fromHexChar p) as [a|]; [|cbn; split; [lia|split; (done || lia)]].
    destruct (Hex.fromHexChar q) as [b|]; [|cbn; split; [lia|split; (done || lia)]].
    destruct (Hex.Decode rest) as [out err]. cbn in *.
    split; [lia|]. rewrite IHiff. lia.
Qed.

End HexFacts.

(** ** Blob mutation, further *)


Module BlobRunFacts.
Import Stratum MemoryFacts BlobFacts.

Lemma hoare_slice_lo_hi_dec (P E : Memory -> Prop) s lo hi :
  (forall m, P m -> ~ (0 <= lo <= hi /\ hi <= Z.of_nat (cap s)) -> E m) ->
  hoare P (slice_lo_hi s lo hi)
    (fun w m => (w = {| base := base s; off := off s + Z.to_nat lo;
                        len := Z.to_nat (hi - lo); cap := cap s - Z.to_nat lo |}
                 /\ 0 <= lo <= hi /\ hi <= Z.of_nat (cap s))
                /\ P m) E.
Proof.
  intros HE m HP. unfold slice_lo_hi.
  destruct (Z.leb_spec 0 lo), (Z.leb_spec lo hi), (Z.leb_spec hi (Z.of_nat (cap s)));
    cbn; try (apply HE; [done|lia]).
  repeat split; auto.
Qed.

Lemma hoare_slice_lo_dec (P E : Memory -> Prop) s lo :
  (forall m, P m -> ~ (0 <= lo <= Z.of_nat (len s)) -> E m) ->
  hoare P (slice_lo s lo)
    (fun w m => (w = {| base := base s; off := off s + Z.to_nat lo;
                        len := len s - Z.to_nat lo; cap := cap s - Z.to_nat lo |}
                 /\ 0 <= lo <= Z.of_nat (len s))
                /\ P m) E.
Proof.
  intros HE m HP. unfold slice_lo.
  destruct (Z.leb_spec 0 lo), (Z.leb_spec lo (Z.of_nat (len s)));
    cbn; try (apply HE; [done|lia]).
  repeat split; auto.
Qed.

Lemma take_min_length {A} (l : list A) n : take (n `min` length l) l = take n l.
Proof. by rewrite <- take_take, firstn_all. Qed.

(** Both bounds checks of [scratch] pass exactly when the reserved range
    lies in the buffer. *)
Lemma checks_pass_iff ro L :
  L < 2 ^ 63 ->
  (0 <= wrap64 (ro + 4) <= wrap64 (ro + 7) /\ wrap64 (ro + 7) <= L) /\ 0 <= ro <= L
  <-> 0 <= ro /\ ro + 7 <= L.
Proof.
  intros HL. split.
  - intros [[H47 H7] Hro]. split; [lia|].
    destruct (Z.lt_ge_cases (ro + 7) (2 ^ 63)) as [Hs|Hb].
    + rewrite (wrap64_small (ro + 7)) in H7 by (unfold int64_range; lia). lia.
    + exfalso. unfold wrap64 in H47.
      change (2 ^ 64) with 18446744073709551616 in *.
      change (2 ^ 63) with 9223372036854775808 in *.
      Z.to_euclidean_division_equations. lia.
  - intros [H0 H7].
    rewrite !wrap64_small by (unfold int64_range; lia). lia.
Qed.

(** A run of [scratch] from the arrays [A] and templates [T] for an instance
    id of any length: it returns exactly when the reserved range lies in the
    buffer, and then the scratch array holds [mutated_any]. *)
Lemma scratch_run A T b t n iid arrb arri :
  T !! b = Some t ->
  A !! base (buffer t) = Some arrb ->
  length (take (len (buffer t)) (drop (off (buffer t)) arrb)) = len (buffer t) ->
  A !! base iid = Some arri ->
  length (take (len iid) (drop (off iid) arri)) = len iid ->
  Z.of_nat (len (buffer t)) < 2 ^ 63 ->
  hoare (state A T) (scratch b n iid)
    (fun s m' =>
       (0 <= reservedOffset t /\ reservedOffset t + 7 <= Z.of_nat (len (buffer t)))
       /\ exists B', state B' T m'
            /\ B' !! base s
               = Some (mutated_any
                         (take (len (buffer t)) (drop (off (buffer t)) arrb))
                         (Z.to_nat (reservedOffset t)) n
                         (take (len iid) (drop (off iid) arri)))
            /\ off s = 0%nat /\ len s = len (buffer t))
    (fun _ => ~ (0 <= reservedOffset t
                 /\ reservedOffset t + 7 <= Z.of_nat (len (buffer t)))).
Proof.
  intros HT Hb Hbl Hi Hil HL.
  set (buf := take (len (buffer t)) (drop (off (buffer t)) arrb)) in *.
  set (idb := take (len iid) (drop (off iid) arri)) in *.
  set (L := len (buffer t)) in *.
  unfold scratch.
  eapply hoare_bind; [apply hoare_alloc_exact | intros extraBuff].
  apply hoare_pure; intros ->.
  eapply hoare_bind; [by apply hoare_deref_exact | intros t'].
  apply hoare_pure; intros ->.
  unfold make.
  eapply hoare_bind; [apply hoare_alloc_exact | intros blobBuff].
  apply hoare_pure; intros ->.
  set (p1 := fresh (dom A)).
  set (B1 := <[p1 := uint32_be n]> A).
  set (p2 := fresh (dom B1)).
  assert (Hp1 : A !! p1 = None) by apply not_elem_of_dom, is_fresh.
  assert (Hp2 : B1 !! p2 = None) by apply not_elem_of_dom, is_fresh.
  assert (Hp2A : A !! p2 = None /\ p1 <> p2) by (by apply lookup_insert_None in Hp2).
  destruct Hp2A as [Hp2A Hp12].
  assert (Hb1 : base (buffer t) <> p1) by congruence.
  assert (Hb2 : base (buffer t) <> p2) by congruence.
  assert (Hi1 : base iid <> p1) by congruence.
  assert (Hi2 : base iid <> p2) by congruence.
  fold L. rewrite length_replicate.
  eapply hoare_bind.
  { eapply hoare_copy_exact; cbn [base].
    - apply lookup_insert_eq.
    - rewrite lookup_insert_ne by done. unfold B1.
      rewrite lookup_insert_ne by done. exact Hb. }
  intros ?. cbn [base off len cap]. fold L buf.
  rewrite Nat.min_id, insert_insert_eq, (take_ge buf) by lia.
  rewrite overwrite_whole by (rewrite length_replicate; lia).
  eapply hoare_bind.
  { apply hoare_slice_lo_hi_dec. cbn [cap]. intros m _ Hno Hok.
    apply Hno. apply (checks_pass_iff _ (Z.of_nat L)) in Hok; [|lia]. tauto. }
  intros w. apply hoare_pure. cbn [cap base off]. intros (-> & H47 & H7).
  eapply hoare_bind.
  { eapply hoare_copy_exact; cbn [base].
    - apply lookup_insert_eq.
    - rewrite lookup_insert_ne by done. unfold B1.
      rewrite lookup_insert_ne by done. exact Hi. }
  intros ?. cbn [base off len cap]. fold idb.
  rewrite insert_insert_eq.
  eapply hoare_bind.
  { apply hoare_slice_lo_dec. cbn [len]. intros m _ Hno Hok.
    apply Hno. lia. }
  intros w'. apply hoare_pure. cbn [len base off cap]. intros (-> & Hro).
  assert (Hok : 0 <= reservedOffset t /\ reservedOffset t + 7 <= Z.of_nat L)
    by (apply checks_pass_iff; [lia | tauto]).
  eapply hoare_bind.
  { eapply hoare_copy_exact; cbn [base].
    - apply lookup_insert_eq.
    - rewrite lookup_insert_ne by done. unfold B1. apply lookup_insert_eq. }
  intros ?. cbn [base off len cap].
  rewrite insert_insert_eq.
  apply hoare_ret. intros m' Hst. split; [exact Hok|].
  eexists. split; [exact Hst|].
  cbn [base off len]. rewrite lookup_insert_eq.
  split; [|done]. f_equal. unfold mutated_any.
  rewrite !wrap64_small by (unfold int64_range; lia).
  replace (0 + Z.to_nat (reservedOffset t + 4))%nat
    with (Z.to_nat (reservedOffset t) + 4)%nat by lia.
  replace (Z.to_nat (reservedOffset t + 7 - (reservedOffset t + 4))) with 3%nat by lia.
  rewrite <- Hil at 1. rewrite take_min_length.
  change (length (uint32_be n)) with 4%nat. rewrite drop_0.
  rewrite !(take_ge (uint32_be n)) by (cbn [length uint32_be]; lia).
  reflexivity.
Qed.

Lemma holds_lookup m s bs :
  holds m s bs ->
  exists arr, arrays m !! base s = Some arr
              /\ take (len s) (drop (off s) arr) = bs
              /\ length (take (len s) (drop (off s) arr)) = len s.
Proof.
  intros [Hc Hl]. unfold contents in Hc.
  destruct (arrays m !! base s) as [arr|]; [|done].
  cbn in Hc. injection Hc as Hc. exists arr. by rewrite Hc.
Qed.

(** The outcome of [nextBlob] on a well-formed memory. *)
Lemma nextBlob_run ConvertBlob m b t n iid buf idb :
  templates m !! b = Some t ->
  holds m (buffer t) buf ->
  holds m iid idb ->
  Z.of_nat (len (buffer t)) < 2 ^ 63 ->
  match nextBlob ConvertBlob b n iid m with
  | Returned str _ =>
      (0 <= reservedOffset t /\ reservedOffset t + 7 <= Z.of_nat (len (buffer t)))
      /\ str = Hex.EncodeToString
                 (ConvertBlob (mutated_any buf (Z.to_nat (reservedOffset t)) n idb))
  | Panicked _ _ =>
      ~ (0 <= reservedOffset t /\ reservedOffset t + 7 <= Z.of_nat (len (buffer t)))
  end.
Proof.
  intros HT Hb Hi HL.
  destruct (holds_lookup _ _ _ Hb) as (arrb & Hab & <- & Hbl).
  destruct (holds_lookup _ _ _ Hi) as (arri & Hai & <- & Hil).
  assert (H : hoare (state (arrays m) (templates m)) (nextBlob ConvertBlob b n iid)
                (fun str _ =>
                   (0 <= reservedOffset t
                    /\ reservedOffset t + 7 <= Z.of_nat (len (buffer t)))
                   /\ str = Hex.EncodeToString
                              (ConvertBlob
                                 (mutated_any
                                    (take (len (buffer t)) (drop (off (buffer t)) arrb))
                                    (Z.to_nat (reservedOffset t)) n
                                    (take (len iid) (drop (off iid) arri)))))
                (fun _ => ~ (0 <= reservedOffset t
                             /\ reservedOffset t + 7 <= Z.of_nat (len (buffer t))))).
  { unfold nextBlob. eapply hoare_bind.
    - by eapply (scratch_run _ _ b t n iid arrb arri).
    - intros s m1 (Hok & B' & [HB HT'] & Hl & Ho & Hlen).
      unfold mbind, M_bind, bind, load, contents. rewrite HB, Hl. cbn.
      split; [exact Hok|]. do 2 f_equal.
      rewrite Ho, Hlen, drop_0. apply take_ge.
      unfold mutated_any, overwrite.
      rewrite !length_app, !length_take, !length_drop, !length_app, !length_take,
        !length_drop.
      change (length (uint32_be n)) with 4%nat. lia. }
  exact (H m (conj eq_refl eq_refl)).
Qed.

Lemma holds_weaken m m' s bs :
  arrays m ⊆ arrays m' -> holds m s bs -> holds m' s bs.
Proof.
  intros Hsub [Hc Hl]. split; [|exact Hl]. unfold contents in *.
  destruct (arrays m !! base s) as [arr|] eqn:Harr; [|done].
  by rewrite (lookup_weaken _ _ _ _ Harr Hsub).
Qed.

Lemma mutated_any_closed (buf idb : list byte) (R : nat) (n : Z) :
  (R + 7 <= length buf)%nat ->
  mutated_any buf R n idb
  = take R buf ++ uint32_be n ++ take 3 idb
      ++ drop (R + 4 + Nat.min 3 (length idb)) buf.
Proof.
  intros HR. unfold mutated_any, overwrite.
  assert (Hlen : length (take (R + 4) buf) = (R + 4)%nat)
    by (rewrite length_take; lia).
  f_equal.
  - rewrite take_app_le by lia. rewrite take_take. f_equal. lia.
  - f_equal. change (length (uint32_be n)) with 4%nat.
    rewrite drop_app_length' by lia. f_equal. f_equal.
    rewrite length_take. lia.
Qed.

End BlobRunFacts.

Module BlobRun.
Import Stratum MemoryFacts BlobFacts BlobRunFacts HexFacts.

(** X7.  On a memory that backs the template's buffer and the instance id
    (of any length), [nextBlob] returns exactly when the reserved offset is
    not negative and leaves seven bytes in the buffer; in every other case it
    panics on one of its two slice expressions. *)
Theorem nextBlob_returns_iff_reserved_range_fits :
  forall (ConvertBlob : list byte -> list byte) (m : Memory) (b : loc)
         (t : BlockTemplate) (buf idb : list byte) (instanceId : slice)
         (extraNonce : Z),
    templates m !! b = Some t ->
    holds m (buffer t) buf ->
    holds m instanceId idb ->
    Z.of_nat (len (buffer t)) < 2 ^ 63 ->
    (is_Some (returned (nextBlob ConvertBlob b extraNonce instanceId m))
     <-> 0 <= reservedOffset t /\ reservedOffset t + 7 <= Z.of_nat (len (buffer t))).
Proof.
  intros C m b t buf idb iid n HT Hb Hi HL.
  pose proof (nextBlob_run C m b t n iid buf idb HT Hb Hi HL) as H.
  destruct (nextBlob C b n iid m) as [str m'|msg m']; cbn.
  - split; [intros _; apply H | intros _; by eexists].
  - split; [by intros [? ?] | intros Hok; by destruct H].
Qed.

Lemma nextBlob_returns_iff_reserved_range_fits_witness :
  is_Some (returned (nextBlob (fun bs => bs) 2%positive 7 sample_instanceId sample_memory))
  <-> 0 <= reservedOffset (sample_template (-1) "abc")
      /\ reservedOffset (sample_template (-1) "abc") + 7
         <= Z.of_nat (len (buffer (sample_template (-1) "abc"))).
Proof.
  apply (nextBlob_returns_iff_reserved_range_fits (fun bs => bs) sample_memory
           2%positive (sample_template (-1) "abc")
           [x01; x02; x03; x04; x05; x06; x07; x08; x09; x0a] [xaa; xbb; xcc]
           sample_instanceId 7).
  - reflexivity.
  - split; reflexivity.
  - split; reflexivity.
  - reflexivity.
Defined.

(** X8.  Whatever [nextBlob] returns is well-formed hexadecimal: decoding it
    gives back, without error, the bytes the transform produced from the
    scratch buffer, two characters per byte. *)
Theorem nextBlob_result_decodes_to_the_converted_blob :
  forall (ConvertBlob : list byte -> list byte) (m m' : Memory) (b : loc)
         (extraNonce : Z) (instanceId : slice) (str : string),
    nextBlob ConvertBlob b extraNonce instanceId m = Returned str m' ->
    exists blob,
      (scratch b extraNonce instanceId ≫= load) m = Returned blob m'
      /\ Hex.DecodeString str = (ConvertBlob blob, None)
      /\ String.length str = (2 * length (ConvertBlob blob))%nat.
Proof.
  intros C m m' b n iid str. unfold nextBlob, mbind, M_bind, bind.
  destruct (scratch b n iid m) as [s m1|]; [|done].
  destruct (load s m1) as [blob m2|]; [|done].
  intros [= <- <-]. exists blob. split; [reflexivity|].
  split; [apply DecodeString_EncodeToString|].
  unfold Hex.EncodeToString. by rewrite length_string_of_list_byte, length_Encode.
Qed.

Lemma nextBlob_result_decodes_to_the_converted_blob_witness :
  exists blob,
    (scratch 1%positive 16909060 sample_instanceId ≫= load) sample_memory
    = Returned blob
        (final_state (nextBlob (fun bs => bs) 1%positive 16909060 sample_instanceId
                        sample_memory))
    /\ Hex.DecodeString "010201020304aabbcc0a" = (blob, None)
    /\ String.length "010201020304aabbcc0a" = (2 * length blob)%nat.
Proof.
  apply (nextBlob_result_decodes_to_the_converted_blob (fun bs => bs) sample_memory
           _ 1%positive 16909060 sample_instanceId "010201020304aabbcc0a").
  vm_compute. reflexivity.
Defined.

(** X9.  Calls do not disturb one another: after any call of [nextBlob] on a
    template, returning or panicking, a further call on the same template,
    with any nonce and any instance id the memory held before, gives the
    result it would have given had the first call not happened. *)
Theorem nextBlob_calls_are_independent :
  forall (ConvertBlob : list byte -> list byte) (m : Memory) (b : loc)
         (t : BlockTemplate) (buf idb idb' : list byte)
         (instanceId instanceId' : slice) (extraNonce extraNonce' : Z),
    templates m !! b = Some t ->
    holds m (buffer t) buf ->
    holds m instanceId idb ->
    holds m instanceId' idb' ->
    Z.of_nat (len (buffer t)) < 2 ^ 63 ->
    returned (nextBlob ConvertBlob b extraNonce' instanceId'
                (final_state (nextBlob ConvertBlob b extraNonce instanceId m)))
    = returned (nextBlob ConvertBlob b extraNonce' instanceId' m).
Proof.
  intros C m b t buf idb idb' iid iid' n n' HT Hb Hi Hi' HL.
  pose proof (nextBlob_keeps C (templates m) (arrays m) b n iid m
                (conj eq_refl (reflexivity _))) as Hk.
  set (m1 := final_state (nextBlob C b n iid m)).
  assert (Hk1 : keeps (templates m) (arrays m) m1)
    by (subst m1; destruct (nextBlob C b n iid m); exact Hk).
  destruct Hk1 as [HT1 HA1].
  pose proof (nextBlob_run C m b t n' iid' buf idb' HT Hb Hi' HL) as H0.
  assert (HT1' : templates m1 !! b = Some t) by by rewrite HT1.
  pose proof (nextBlob_run C m1 b t n' iid' buf idb' HT1'
                (holds_weaken _ _ _ _ HA1 Hb) (holds_weaken _ _ _ _ HA1 Hi') HL) as H1.
  destruct (nextBlob C b n' iid' m) as [s0 ?|? ?],
           (nextBlob C b n' iid' m1) as [s1 ?|? ?]; cbn; try done.
  - destruct H0 as [_ ->], H1 as [_ ->]. reflexivity.
  - by destruct H0.
  - by destruct H1.
Qed.

Lemma nextBlob_calls_are_independent_witness :
  returned (nextBlob (fun bs => bs) 1%positive 2 sample_instanceId
              (final_state (nextBlob (fun bs => bs) 1%positive 1 sample_instanceId
                              sample_memory)))
  = returned (nextBlob (fun bs => bs) 1%positive 2 sample_instanceId sample_memory).
Proof.
  apply (nextBlob_calls_are_independent (fun bs => bs) sample_memory 1%positive
           (sample_template 2 "abc")
           [x01; x02; x03; x04; x05; x06; x07; x08; x09; x0a]
           [xaa; xbb; xcc] [xaa; xbb; xcc]).
  - reflexivity.
  - split; reflexivity.
  - split; reflexivity.
  - split; reflexivity.
  - reflexivity.
Defined.

(** X10.  The instance id may have any length: when the reserved range fits,
    [nextBlob] writes the first three bytes of the id, or all of it when it
    is shorter, at offset reservedOffset + 4, and the bytes of the range that
    a shorter id does not reach keep the template's values. *)
Theorem nextBlob_truncates_or_pads_the_instance_id :
  forall (ConvertBlob : list byte -> list byte) (m : Memory) (b : loc)
         (t : BlockTemplate) (buf idb : list byte) (instanceId : slice)
         (extraNonce : Z),
    templates m !! b = Some t ->
    holds m (buffer t) buf ->
    holds m instanceId idb ->
    Z.of_nat (len (buffer t)) < 2 ^ 63 ->
    0 <= reservedOffset t ->
    reservedOffset t + 7 <= Z.of_nat (len (buffer t)) ->
    exists m',
      nextBlob ConvertBlob b extraNonce instanceId m
      = Returned
          (Hex.EncodeToString
             (ConvertBlob
                (take (Z.to_nat (reservedOffset t)) buf
                 ++ uint32_be extraNonce
                 ++ take 3 idb
                 ++ drop (Z.to_nat (reservedOffset t) + 4 + Nat.min 3 (length idb)) buf)))
          m'.
Proof.
  intros C m b t buf idb iid n HT Hb Hi HL H0 H7.
  pose proof (nextBlob_run C m b t n iid buf idb HT Hb Hi HL) as H.
  assert (Hbl : length buf = len (buffer t)) by apply Hb.
  destruct (nextBlob C b n iid m) as [str m'|msg m'].
  - destruct H as [_ ->]. exists m'. by rewrite mutated_any_closed by lia.
  - by destruct H.
Qed.

Lemma nextBlob_truncates_or_pads_the_instance_id_witness :
  exists m',
    nextBlob (fun bs => bs) 1%positive 16909060
      {| base := 2%positive; off := 0; len := 2; cap := 3 |} sample_memory
    = Returned
        (Hex.EncodeToString
           (take (Z.to_nat (reservedOffset (sample_template 2 "abc")))
                 [x01; x02; x03; x04; x05; x06; x07; x08; x09; x0a]
            ++ uint32_be 16909060
            ++ take 3 [xaa; xbb]
            ++ drop (Z.to_nat (reservedOffset (sample_template 2 "abc")) + 4
                     + Nat.min 3 (length [xaa; xbb]))
                 [x01; x02; x03; x04; x05; x06; x07; x08; x09; x0a]))
        m'.
Proof.
  apply (nextBlob_truncates_or_pads_the_instance_id (fun bs => bs) sample_memory
           1%positive (sample_template 2 "abc")
           [x01; x02; x03; x04; x05; x06; x07; x08; x09; x0a] [xaa; xbb]
           {| base := 2%positive; off := 0; len := 2; cap := 3 |} 16909060).
  - reflexivity.
  - split; reflexivity.
  - split; reflexivity.
  - reflexivity.
  - discriminate.
  - discriminate.
Defined.

End BlobRun.

(** ** Template refresh, further *)

Module RefreshRunFacts.
Import Stratum MemoryFacts TransportFacts RefreshFacts.

(** The three ways a refresh can end. *)
Lemma fetch_cases json daemon s :
  let g := Rpc.GetBlockTemplate json daemon 8 (config_Address s) (upstream s) in
  fetchBlockTemplate json daemon s = Returned false (set_upstream (final_state g) s)
  \/ (exists msg,
        fetchBlockTemplate json daemon s = Panicked msg (set_upstream (final_state g) s))
  \/ (exists rp,
        g = Returned (Some rp, None) (upstream s)
        /\ fetchBlockTemplate json daemon s = Returned true (publish rp s)).
Proof.
  intros g. rewrite fetchBlockTemplate_outcome. fold g.
  destruct g as [[reply [e|]] r'|msg r'] eqn:Hg; cbn [final_state].
  - by left.
  - pose proof (GetBlockTemplate_no_error _ _ _ _ _ _ _ Hg) as ->.
    rewrite set_upstream_same. cbn zeta.
    destruct (blockTemplate s) as [p|].
    + destruct (templates (memory s) !! p) as [cur|]; [|right; left; by eexists].
      destruct reply as [rp|]; [|right; left; by eexists].
      destruct (String.eqb (prevHash cur) (Rpc.PrevHash rp));
        [destruct (_ && _); [|by left]|]; right; right; by exists rp.
    + destruct reply as [rp|]; [|right; left; by eexists].
      right; right; by exists rp.
  - right; left; by eexists.
Qed.

Lemma fetch_true_publish json daemon s s' :
  fetchBlockTemplate json daemon s = Returned true s' ->
  exists rp,
    Rpc.GetBlockTemplate json daemon 8 (config_Address s) (upstream s)
    = Returned (Some rp, None) (upstream s)
    /\ s' = publish rp s.
Proof.
  intros Hf. destruct (fetch_cases json daemon s) as [H|[[msg H]|(rp & Hg & H)]];
    rewrite H in Hf; try done.
  injection Hf as <-. by exists rp.
Qed.

(** The transport leaves the client as it was or with one more failure
    report. *)
Lemma GetBlockTemplate_client json daemon reserveSize address r :
  final_state (Rpc.GetBlockTemplate json daemon reserveSize address r) = r
  \/ final_state (Rpc.GetBlockTemplate json daemon reserveSize address r)
     = Rpc.markSick_pure r.
Proof.
  rewrite GetBlockTemplate_outcome, doPost_outcome.
  destruct (daemon _) as [e|[resp|] [e|]]; cbn; auto.
  destruct (Rpc.Error resp) as [m|].
  - destruct (m !! "message") as [[]|]; cbn; auto.
  - destruct (Rpc.Result resp) as [raw|]; cbn; auto.
Qed.

Lemma markSick_pure_keeps_sick r : Rpc.sick r = true -> Rpc.sick (Rpc.markSick_pure r) = true.
Proof. intros H. cbn. rewrite H. by destruct (5 <=? _). Qed.

End RefreshRunFacts.

Module RefreshRun.
Import Stratum MemoryFacts TransportFacts RefreshFacts RefreshRunFacts.
Import BlobRunFacts HexFacts.

(** X11.  A refresh reports failures to the health monitor but never a
    success: whatever the outcome, the upstream record afterwards is the one
    from before or that one with a single failure report, so an endpoint that
    is sick stays sick through any refresh. *)
Theorem refresh_never_reports_a_success :
  forall (json : Rpc.Json) (daemon : Rpc.Daemon) (s : StratumServer),
    (upstream (final_state (fetchBlockTemplate json daemon s)) = upstream s
     \/ upstream (final_state (fetchBlockTemplate json daemon s))
        = Rpc.markSick_pure (upstream s))
    /\ (Rpc.sick (upstream s) = true ->
        Rpc.sick (upstream (final_state (fetchBlockTemplate json daemon s))) = true).
Proof.
  intros json daemon s.
  assert (H : upstream (final_state (fetchBlockTemplate json daemon s)) = upstream s
              \/ upstream (final_state (fetchBlockTemplate json daemon s))
                 = Rpc.markSick_pure (upstream s)).
  { pose proof (GetBlockTemplate_client json daemon 8 (config_Address s) (upstream s))
      as Hc.
    destruct (fetch_cases json daemon s) as [H|[[msg H]|(rp & Hg & H)]];
      rewrite H; cbn [final_state]; [exact Hc | exact Hc | by left]. }
  split; [exact H|]. intros Hs.
  destruct H as [-> | ->]; [exact Hs | by apply markSick_pure_keeps_sick].
Qed.

Lemma refresh_never_reports_a_success_witness :
  Rpc.sick (upstream (final_state
     (fetchBlockTemplate Rpc.lenient (Rpc.answers (Rpc.result_envelope "{}"))
        (set_upstream (Rpc.run (replicate 5 Rpc.Failure) Rpc.local_client) new_server))))
  = true.
Proof.
  apply (proj2 (refresh_never_reports_a_success Rpc.lenient
                  (Rpc.answers (Rpc.result_envelope "{}"))
                  (set_upstream (Rpc.run (replicate 5 Rpc.Failure) Rpc.local_client)
                     new_server))).
  vm_compute. reflexivity.
Defined.

(** X12.  A reply is published once: after a refresh that published, a
    further refresh against a daemon that still gives the same answer returns
    false and changes nothing. *)
Theorem refresh_does_not_publish_the_same_reply_twice :
  forall (json : Rpc.Json) (daemon : Rpc.Daemon) (s s' : StratumServer),
    fetchBlockTemplate json daemon s = Returned true s' ->
    fetchBlockTemplate json daemon s' = Returned false s'.
Proof.
  intros json daemon s s' Hf.
  destruct (fetch_true_publish _ _ _ _ Hf) as (rp & Hg & ->).
  destruct (publish_spec rp s) as (t & p & Hb & _ & Ht & Hbf & _).
  rewrite fetchBlockTemplate_outcome.
  change (config_Address (publish rp s)) with (config_Address s).
  change (upstream (publish rp s)) with (upstream s).
  rewrite Hg, Hb, Ht. cbn zeta.
  destruct Hbf as (_ & _ & Hh & Hp & _). rewrite Hp, Hh, String.eqb_refl.
  replace (Rpc.Height rp >? Rpc.Height rp) with false
    by (symmetry; rewrite Z.gtb_ltb; apply Z.ltb_irrefl).
  rewrite andb_false_r.
  change (upstream s) with (upstream (publish rp s)). by rewrite set_upstream_same.
Qed.

Lemma refresh_does_not_publish_the_same_reply_twice_witness :
  fetchBlockTemplate Rpc.lenient (Rpc.answers (Rpc.result_envelope "{}"))
    (final_state (fetchBlockTemplate Rpc.lenient
                    (Rpc.answers (Rpc.result_envelope "{}")) (sample_server 1%positive)))
  = Returned false
      (final_state (fetchBlockTemplate Rpc.lenient
                      (Rpc.answers (Rpc.result_envelope "{}")) (sample_server 1%positive))).
Proof.
  apply (refresh_does_not_publish_the_same_reply_twice Rpc.lenient
           (Rpc.answers (Rpc.result_envelope "{}")) (sample_server 1%positive)).
  vm_compute. reflexivity.
Defined.

(** X13.  The published buffer never has more than one byte per two
    characters of the reply's blob, and it has exactly that many when, and
    only when, the blob is accepted by [hex.DecodeString]: a malformed blob
    shows as a buffer shorter than half the blob. *)
Theorem published_buffer_is_half_the_blob_iff_hex :
  forall (json : Rpc.Json) (daemon : Rpc.Daemon) (s s' : StratumServer),
    fetchBlockTemplate json daemon s = Returned true s' ->
    exists reply t,
      Rpc.GetBlockTemplate json daemon 8 (config_Address s) (upstream s)
      = Returned (Some reply, None) (upstream s)
      /\ current s' = Some t
      /\ (2 * len (buffer t) <= String.length (Rpc.Blob reply))%nat
      /\ (snd (Hex.DecodeString (Rpc.Blob reply)) = None
          <-> (2 * len (buffer t))%nat = String.length (Rpc.Blob reply)).
Proof.
  intros json daemon s s' Hf.
  destruct (fetch_true_publish _ _ _ _ Hf) as (rp & Hg & ->).
  destruct (publish_spec rp s) as (t & p & Hb & _ & Ht & _ & _ & Hlen & _).
  exists rp, t. split; [exact Hg|].
  split; [by rewrite (current_Some _ _ Hb)|].
  rewrite Hlen. unfold Hex.DecodeString.
  rewrite <- length_list_byte_of_string. apply Decode_length.
Qed.

Lemma published_buffer_is_half_the_blob_iff_hex_witness :
  exists reply t,
    Rpc.GetBlockTemplate
      (Rpc.Json_at (Rpc.blob_payload "0azz") (Some (Rpc.blob_reply "0azz"), None))
      (Rpc.answers (Rpc.result_envelope (Rpc.blob_payload "0azz")))
      8 (config_Address new_server) (upstream new_server)
    = Returned (Some reply, None) (upstream new_server)
    /\ current (final_state
         (fetchBlockTemplate
            (Rpc.Json_at (Rpc.blob_payload "0azz") (Some (Rpc.blob_reply "0azz"), None))
            (Rpc.answers (Rpc.result_envelope (Rpc.blob_payload "0azz"))) new_server))
       = Some t
    /\ (2 * len (buffer t) <= String.length (Rpc.Blob reply))%nat
    /\ (snd (Hex.DecodeString (Rpc.Blob reply)) = None
        <-> (2 * len (buffer t))%nat = String.length (Rpc.Blob reply)).
Proof.
  apply (published_buffer_is_half_the_blob_iff_hex
           (Rpc.Json_at (Rpc.blob_payload "0azz") (Some (Rpc.blob_reply "0azz"), None))
           (Rpc.answers (Rpc.result_envelope (Rpc.blob_payload "0azz"))) new_server).
  vm_compute. reflexivity.
Defined.

(** X14.  Refresh and mutation together: on the template a refresh has just
    published from [reply], [nextBlob] returns exactly when the reply's
    reserved offset is not negative and leaves seven bytes in the decoded
    blob, and what it then returns is the hexadecimal form of the transform
    applied to the decoded blob with nonce and instance id written over the
    reserved range. *)
Theorem nextBlob_on_a_published_template :
  forall (ConvertBlob : list byte -> list byte) (json : Rpc.Json)
         (daemon : Rpc.Daemon) (s s' : StratumServer)
         (reply : Rpc.GetBlockTemplateReply) (r' : Rpc.RPCClient)
         (instanceId : slice) (idb : list byte) (extraNonce : Z),
    fetchBlockTemplate json daemon s = Returned true s' ->
    Rpc.GetBlockTemplate json daemon 8 (config_Address s) (upstream s)
    = Returned (Some reply, None) r' ->
    holds (memory s) instanceId idb ->
    Z.of_nat (length (fst (Hex.DecodeString (Rpc.Blob reply)))) < 2 ^ 63 ->
    exists p,
      blockTemplate s' = Some p
      /\ match nextBlob ConvertBlob p extraNonce instanceId (memory s') with
         | Returned str _ =>
             (0 <= Rpc.ReservedOffset reply
              /\ Rpc.ReservedOffset reply + 7
                 <= Z.of_nat (length (fst (Hex.DecodeString (Rpc.Blob reply)))))
             /\ str = Hex.EncodeToString
                        (ConvertBlob
                           (mutated_any (fst (Hex.DecodeString (Rpc.Blob reply)))
                              (Z.to_nat (Rpc.ReservedOffset reply)) extraNonce idb))
         | Panicked _ _ =>
             ~ (0 <= Rpc.ReservedOffset reply
                /\ Rpc.ReservedOffset reply + 7
                   <= Z.of_nat (length (fst (Hex.DecodeString (Rpc.Blob reply)))))
         end.
Proof.
  intros C json daemon s s' reply r' iid idb n Hf Hg Hi HL.
  destruct (fetch_true_publish _ _ _ _ Hf) as (rp & Hg' & ->).
  rewrite Hg in Hg'. injection Hg' as <- _.
  destruct (publish_spec reply s) as (t & p & Hb & _ & Ht & Hbf & Hh & Hlen & _ & HA).
  exists p. split; [exact Hb|].
  destruct Hbf as (_ & _ & _ & _ & Hro & _).
  rewrite <- Hro, <- Hlen. rewrite <- Hlen in HL.
  apply (nextBlob_run C _ p t n iid _ idb Ht Hh (holds_weaken _ _ _ _ HA Hi) HL).
Qed.

Lemma nextBlob_on_a_published_template_witness :
  exists p,
    blockTemplate (final_state
       (fetchBlockTemplate
          (Rpc.Json_at (Rpc.blob_payload "0001020304050607")
             (Some (Rpc.blob_reply "0001020304050607"), None))
          (Rpc.answers (Rpc.result_envelope (Rpc.blob_payload "0001020304050607")))
          (sample_server 1%positive))) = Some p
    /\ match nextBlob (fun bs => bs) p 7 sample_instanceId
               (memory (final_state
                  (fetchBlockTemplate
                     (Rpc.Json_at (Rpc.blob_payload "0001020304050607")
                        (Some (Rpc.blob_reply "0001020304050607"), None))
                     (Rpc.answers
                        (Rpc.result_envelope (Rpc.blob_payload "0001020304050607")))
                     (sample_server 1%positive)))) with
       | Returned str _ =>
           (0 <= Rpc.ReservedOffset (Rpc.blob_reply "0001020304050607")
            /\ Rpc.ReservedOffset (Rpc.blob_reply "0001020304050607") + 7
               <= Z.of_nat (length (fst (Hex.DecodeString
                                           (Rpc.Blob (Rpc.blob_reply "0001020304050607"))))))
           /\ str = Hex.EncodeToString
                      (mutated_any
                         (fst (Hex.DecodeString
                                 (Rpc.Blob (Rpc.blob_reply "0001020304050607"))))
                         (Z.to_nat (Rpc.ReservedOffset (Rpc.blob_reply "0001020304050607")))
                         7 [xaa; xbb; xcc])
       | Panicked _ _ =>
           ~ (0 <= Rpc.ReservedOffset (Rpc.blob_reply "0001020304050607")
              /\ Rpc.ReservedOffset (Rpc.blob_reply "0001020304050607") + 7
                 <= Z.of_nat (length (fst (Hex.DecodeString
                                             (Rpc.Blob (Rpc.blob_reply "0001020304050607"))))))
       end.
Proof.
  apply (nextBlob_on_a_published_template (fun bs => bs)
           (Rpc.Json_at (Rpc.blob_payload "0001020304050607")
              (Some (Rpc.blob_reply "0001020304050607"), None))
           (Rpc.answers (Rpc.result_envelope (Rpc.blob_payload "0001020304050607")))
           (sample_server 1%positive)
           _ (Rpc.blob_reply "0001020304050607") Rpc.local_client
           sample_instanceId [xaa; xbb; xcc] 7).
  - vm_compute. reflexivity.
  - reflexivity.
  - split; reflexivity.
  - reflexivity.
Defined.

(** X15.  The store stays well formed and snapshots are never taken back:
    after any refresh, whatever its outcome, a store that pointed to a
    template object still points to one, a store that was not nil is not
    nil, and every template object that existed is still there with the same
    fields. *)
Theorem refresh_keeps_the_store_well_formed :
  forall (json : Rpc.Json) (daemon : Rpc.Daemon) (s : StratumServer),
    (store_ok s -> store_ok (final_state (fetchBlockTemplate json daemon s)))
    /\ (blockTemplate s <> None ->
        blockTemplate (final_state (fetchBlockTemplate json daemon s)) <> None)
    /\ templates (memory s)
       ⊆ templates (memory (final_state (fetchBlockTemplate json daemon s))).
Proof.
  intros json daemon s.
  destruct (fetch_cases json daemon s) as [H|[[msg H]|(rp & Hg & H)]];
    rewrite H; cbn [final_state].
  - repeat split; done.
  - repeat split; done.
  - destruct (publish_spec rp s) as (t & p & Hb & _ & Ht & _ & _ & _ & HT & _).
    split; [|split; [|exact HT]].
    + intros _. right. exists t. by rewrite (current_Some _ _ Hb).
    + intros _. by rewrite Hb.
Qed.

Lemma refresh_keeps_the_store_well_formed_witness :
  store_ok (final_state (fetchBlockTemplate Rpc.lenient
                           (Rpc.answers (Rpc.result_envelope "{}")) new_server))
  /\ blockTemplate (final_state (fetchBlockTemplate Rpc.lenient Rpc.down
                                   (sample_server 1%positive))) <> None.
Proof.
  split.
  - apply (proj1 (refresh_keeps_the_store_well_formed Rpc.lenient
                    (Rpc.answers (Rpc.result_envelope "{}")) new_server)).
    by left.
  - apply (proj1 (proj2 (refresh_keeps_the_store_well_formed Rpc.lenient Rpc.down
                           (sample_server 1%positive)))).
    discriminate.
Defined.

End RefreshRun.
